(** * eval-bot: the evaluation pipeline of [main.py]

    A shallow embedding of the chat handler that runs a submitted script,
    captures its output, sanitizes the traceback of a failure and formats
    the reply, together with the properties of that pipeline.

    Conventions of the embedding:
    - a Python [str] is a [string]; every [ascii] stands for one code point
      below 256, so [String.length] is Python's [len];
    - an index that may be negative is a [Z];
    - a [dict] with string keys is a [gmap string _];
    - the calls a handler makes on its collaborators (the chat transport and
      the embedded interpreter) are returned as a list of [action]s, in the
      order in which the code awaits them; a call on the transport is taken
      to succeed;
    - an exception that leaves a function is returned as a value;
    - a script is given by what it does to the handler: the calls of the
      [print] of its environment, what it reads and writes in the sinks by
      other means, and the value or the exception it ends with, each with
      what its [str] does. A script that does not end is outside the
      embedding;
    - a text has no surrogate code point, so that [str.encode] gives its
      bytes and does not raise. *)

From Stdlib Require Import ZArith Ascii String List Lia Bool.
From stdpp Require Import base option list gmap strings.

Local Open Scope Z_scope.
Local Open Scope nat_scope.

(** ** The fragment of Python's [str] the handler relies on *)

Module Str.

(** [s.startswith(p)]. *)
Fixpoint startswith (s p : string) {struct p} : bool :=
  match p with
  | EmptyString => true
  | String a p' =>
      match s with
      | EmptyString => false
      | String b s' => Ascii.eqb a b && startswith s' p'
      end
  end.

(** [s[n:]] for [0 <= n]. *)
Fixpoint skip (n : nat) (s : string) : string :=
  match n, s with
  | O, _ => s
  | S _, EmptyString => EmptyString
  | S n', String _ s' => skip n' s'
  end.

(** [s.endswith(p)]. *)
Definition endswith (s p : string) : bool :=
  (String.length p <=? String.length s)
  && String.eqb (skip (String.length s - String.length p) s) p.

(** [p in s]: [p] occurs in [s] as a contiguous substring. *)
Fixpoint contains (s p : string) : bool :=
  startswith s p
  || match s with
     | EmptyString => false
     | String _ s' => contains s' p
     end.

(** [str.isspace] on one code point of the Latin-1 range: the ASCII
    blanks, the separators 28 to 31, NEL (133) and the no-break space
    (160). *)
Definition isspace (c : ascii) : bool :=
  let n := nat_of_ascii c in
  ((9 <=? n) && (n <=? 13)) || ((28 <=? n) && (n <=? 32))
  || (n =? 133) || (n =? 160).

Definition is_empty (s : string) : bool :=
  match s with EmptyString => true | String _ _ => false end.

(** [s.rstrip()]: drop the longest suffix made of white space. *)
Fixpoint rstrip (s : string) : string :=
  match s with
  | EmptyString => EmptyString
  | String c s' =>
      let r := rstrip s' in
      if is_empty r && isspace c then EmptyString else String c r
  end.

(** [s.lstrip()]. *)
Fixpoint lstrip (s : string) : string :=
  match s with
  | EmptyString => EmptyString
  | String c s' => if isspace c then lstrip s' else s
  end.

(** Every code point of [s] is white space. *)
Fixpoint all_space (s : string) : bool :=
  match s with
  | EmptyString => true
  | String c s' => isspace c && all_space s'
  end.

(** [s.replace(old, new)] for a one-character [old]. *)
Fixpoint replace (old : ascii) (new : string) (s : string) : string :=
  match s with
  | EmptyString => EmptyString
  | String c s' =>
      (if Ascii.eqb c old then new else String c EmptyString)
      +:+ replace old new s'
  end.

(** [s.split(sep)] for a one-character [sep]: every occurrence cuts, and
    empty fields are kept. *)
Fixpoint split (sep : ascii) (s : string) : list string :=
  match s with
  | EmptyString => [EmptyString]
  | String c s' =>
      if Ascii.eqb c sep then EmptyString :: split sep s'
      else match split sep s' with
           | [] => [String c EmptyString]
           | w :: ws => String c w :: ws
           end
  end.

(** The first white-space delimited word of [s] and what follows it. *)
Fixpoint span_word (s : string) : string * string :=
  match s with
  | EmptyString => (EmptyString, EmptyString)
  | String c s' =>
      if isspace c then (EmptyString, s)
      else let '(w, r) := span_word s' in (String c w, r)
  end.

(** [s.split(None, 1)]: leading white space is skipped, the first word is
    cut off, and the rest, without its leading white space and when it is
    not empty, is the second and last field. *)
Definition split_ws_1 (s : string) : list string :=
  match lstrip s with
  | EmptyString => []
  | s0 =>
      let '(w, r) := span_word s0 in
      match lstrip r with
      | EmptyString => [w]
      | r' => [w; r']
      end
  end.

(** [s.upper()] on the letters of ASCII. *)
Definition upper_char (c : ascii) : ascii :=
  let n := nat_of_ascii c in
  if (97 <=? n) && (n <=? 122) then ascii_of_nat (n - 32) else c.

Fixpoint upper (s : string) : string :=
  match s with
  | EmptyString => EmptyString
  | String c s' => String (upper_char c) (upper s')
  end.

(** [sep.join(l)]. *)
Fixpoint join (sep : string) (l : list string) : string :=
  match l with
  | [] => EmptyString
  | [x] => x
  | x :: l' => x +:+ sep +:+ join sep l'
  end.

(** [c * n]. *)
Fixpoint times (c : ascii) (n : nat) : string :=
  match n with
  | O => EmptyString
  | S n' => String c (times c n')
  end.

(** [s.encode()]: the UTF-8 bytes of [s]. A code point below 128 is one
    byte, the others of the Latin-1 range are two. *)
Definition encode_char (c : ascii) : list ascii :=
  let n := nat_of_ascii c in
  if n <? 128 then [c]
  else [ascii_of_nat (192 + n / 64); ascii_of_nat (128 + n mod 64)].

Fixpoint encode (s : string) : list ascii :=
  match s with
  | EmptyString => []
  | String c s' => encode_char c ++ encode s'
  end.

End Str.

(** [l[i:]], the slice of a Python sequence from a start index that may be
    negative: a negative start counts from the end and is clamped at 0, a
    start past the end gives the empty list. *)
Definition slice_from {A} (i : Z) (l : list A) : list A :=
  let n := Z.of_nat (length l) in
  let start := if (i <? 0)%Z then Z.max 0 (i + n) else Z.min i n in
  drop (Z.to_nat start) l.

(** ** Tracebacks *)

(** [traceback.FrameSummary]: one entry of an extracted traceback. *)
Record FrameSummary := {
  filename : string;
  lineno : nat;
  name : string;
  line : string
}.

(** A raised exception as the handler sees it: whether its class derives
    from [Exception] (every other one derives from [BaseException] only, as
    [SystemExit], [KeyboardInterrupt] and [asyncio.CancelledError] do), the
    name of its class, what [str(error)] does, and the frames that
    [traceback.extract_tb(error.__traceback__)] returns, outermost first.
    [str(error)] runs the [__str__] of the class, which is code of the
    script for a class the script defines: it gives a text or raises an
    exception of its own. *)
#[warnings="-register-all"]
Inductive PyException := Build_PyException {
  derives_Exception : bool;
  type_name : string;
  str_error : PyException + string;
  extract_tb : list FrameSummary
}.

(** The test of the generator in [format_exception_with_traceback]. *)
Definition is_snippet_frame (frame : FrameSummary) : bool :=
  String.eqb (filename frame) "<string>"
  || Str.endswith (filename frame) "ast.py".

(** [next((i for i, frame in enumerate(tb) if ...), -1)]. *)
Definition first_snip_idx (tb : list FrameSummary) : Z :=
  match list_find (λ frame, is_snippet_frame frame = true) tb with
  | Some (i, _) => Z.of_nat i
  | None => (-1)%Z
  end.

(** [tb[first_snip_idx:]]. *)
Definition stripped_tb (tb : list FrameSummary) : list FrameSummary :=
  slice_from (first_snip_idx tb) tb.

(** ** The fragment of [posixpath] behind [os.path.relpath] *)

Module posixpath.

Definition isabs (s : string) : bool := Str.startswith s "/".

(** One round of the loop of [join(a, *p)]. *)
Definition join_step (path b : string) : string :=
  if Str.startswith b "/" then b
  else if Str.is_empty path || Str.endswith path "/" then path +:+ b
  else path +:+ "/" +:+ b.

Definition join (a : string) (p : list string) : string :=
  fold_left join_step p a.

(** One round of the loop of [normpath] over the components; [new_comps]
    grows and shrinks at its end. *)
Definition norm_step (initial_slashes : nat) (new_comps : list string)
    (comp : string) : list string :=
  if String.eqb comp "" || String.eqb comp "." then new_comps
  else if negb (String.eqb comp "..")
          || ((initial_slashes =? 0) && bool_decide (new_comps = []))
          || bool_decide (last new_comps = Some "..")
       then new_comps ++ [comp]
       else removelast new_comps.

Definition normpath (path : string) : string :=
  if Str.is_empty path then "."
  else
    let initial_slashes :=
      if Str.startswith path "/"
      then if Str.startswith path "//" && negb (Str.startswith path "///")
           then 2 else 1
      else 0 in
    let comps := fold_left (norm_step initial_slashes) (Str.split "/" path) [] in
    let path' := Str.times "/" initial_slashes +:+ Str.join "/" comps in
    if Str.is_empty path' then "." else path'.

(** [abspath(path)] in a process whose working directory is [cwd]. *)
Definition abspath (cwd path : string) : string :=
  normpath (if isabs path then path else join cwd [path]).

(** The length of [commonprefix([l1, l2])]: how many leading components the
    two lists share. *)
Fixpoint commonprefix_len (l1 l2 : list string) : nat :=
  match l1, l2 with
  | x :: l1', y :: l2' => if String.eqb x y then S (commonprefix_len l1' l2') else 0
  | _, _ => 0
  end.

Definition nonempty_parts (s : string) : list string :=
  filter (λ x, x ≠ "") (Str.split "/" s).

(** [relpath(path, start)], as in CPython 3.11; [None] is the [ValueError]
    raised for an empty [path]. *)
Definition relpath (cwd path start : string) : option string :=
  if Str.is_empty path then None
  else
    let start_list := nonempty_parts (abspath cwd start) in
    let path_list := nonempty_parts (abspath cwd path) in
    let i := commonprefix_len start_list path_list in
    let rel_list := replicate (length start_list - i) ".." ++ drop i path_list in
    match rel_list with
    | [] => Some "."
    | a :: p => Some (join a p)
    end.

End posixpath.

(** ** Rendering the traceback *)

Definition NL : string := String "010" EmptyString.

Definition set_filename (frame : FrameSummary) (f : string) : FrameSummary :=
  {| filename := f; lineno := lineno frame; name := name frame; line := line frame |}.

Definition ValueError (msg : string) : PyException :=
  {| derives_Exception := true; type_name := "ValueError";
     str_error := inr msg;
     extract_tb := [] |}.

(** The loop of [create_traceback_message] over the frames. The test is
    [base_directory in frame.filename], a substring test; [relpath] reads
    the working directory again to make its arguments absolute. An
    exception of [relpath] ends the loop. *)
Fixpoint relativize (base_directory : string) (frames : list FrameSummary)
    : PyException + list FrameSummary :=
  match frames with
  | [] => inr []
  | frame :: rest =>
      if Str.contains (filename frame) base_directory
      then match posixpath.relpath base_directory (filename frame) base_directory with
           | None => inl (ValueError "no path specified")
           | Some rel =>
               match relativize base_directory rest with
               | inl e => inl e
               | inr rest' => inr (set_filename frame rel :: rest')
               end
           end
      else match relativize base_directory rest with
           | inl e => inl e
           | inr rest' => inr (frame :: rest')
           end
  end.

(** ** Files and the built-in [print] *)

(** The values a script passes to [print] by keyword. *)
Inductive pyval :=
| PNone
| PStr (s : string)
| PFile (f : nat)
| PObject.

(** The text sinks of the process, by identity: what each has received so
    far. [sys_stdout] is the standard output. *)
Definition sys_stdout : nat := 0.

Definition getvalue (f : nat) (files : gmap nat string) : string :=
  default "" (files !! f).

Definition write (f : nat) (s : string) (files : gmap nat string)
    : gmap nat string :=
  <[f := getvalue f files +:+ s]> files.

(** [io.StringIO()]: a new, empty sink. *)
Definition StringIO (files : gmap nat string) : nat * gmap nat string :=
  let f := fresh ({[sys_stdout]} ∪ dom files) in
  (f, <[f := ""]> files).

Definition TypeError (msg : string) : PyException :=
  {| derives_Exception := true; type_name := "TypeError";
     str_error := inr msg;
     extract_tb := [] |}.

Definition AttributeError (msg : string) : PyException :=
  {| derives_Exception := true; type_name := "AttributeError";
     str_error := inr msg;
     extract_tb := [] |}.

Definition IndexError (msg : string) : PyException :=
  {| derives_Exception := true; type_name := "IndexError";
     str_error := inr msg;
     extract_tb := [] |}.

Definition print_keywords : gset string :=
  {[ "sep"; "end"; "file"; "flush" ]}.

(** The [sep] or [end] keyword of [print]: absent or [None] is the default,
    anything but a string is refused. *)
Definition text_keyword (kwargs : gmap string pyval) (key dflt : string)
    : PyException + string :=
  match kwargs !! key with
  | None | Some PNone => inr dflt
  | Some (PStr s) => inr s
  | Some _ => inl (TypeError (key +:+ " must be None or a string"))
  end.

(** The [print] of [builtins], on positional arguments that are already
    rendered by [str]: the text goes to [kwargs["file"]], to the standard
    output when that is absent or [None]. The result is the exception the
    call raises, if any. *)
Definition py_print (args : list string) (kwargs : gmap string pyval)
    (files : gmap nat string) : gmap nat string * option PyException :=
  if bool_decide (dom kwargs ⊆ print_keywords) then
    match text_keyword kwargs "sep" " ", text_keyword kwargs "end" NL with
    | inr sep, inr end_ =>
        let s := Str.join sep args +:+ end_ in
        match kwargs !! "file" with
        | None | Some PNone => (write sys_stdout s files, None)
        | Some (PFile f) => (write f s files, None)
        | Some _ =>
            (files, Some (AttributeError "object has no attribute 'write'"))
        end
    | inl e, _ => (files, Some e)
    | _, inl e => (files, Some e)
    end
  else (files, Some (TypeError "invalid keyword argument for print()")).

(** ** Scripts *)

(** What running a script amounts to for the handler. It returns: [None]
    is Python's [None], and any other value is given by what [str] of it
    does, a text or the exception its [__str__] raises. It raises. It calls
    the [print] of its environment and goes on with what that call raised,
    if anything. Or it reads and changes the sinks by any other means
    ([sys.stdout.write], a file of its own, the buffer taken out of the
    closure of [print]) and goes on. The calls a script makes on the
    transport through [message] and [bot] are its own and are not listed
    among the calls of the handler. *)
Inductive script :=
| Return (value : option (PyException + string))
| Raise (e : PyException)
| CallPrint (args : list string) (kwargs : gmap string pyval)
    (k : option PyException → script)
| Direct (effect : gmap nat string → gmap nat string)
    (k : gmap nat string → script).

(** ** The chat transport *)

Record Message := {
  text : string;
  reply_to_message : option string
}.

Record Update := {
  effective_message : Message;
  effective_user : string
}.

Record Context := {
  args : list string;
  bot : string
}.

(** The awaited calls, in order. *)
Inductive action :=
| reply_text (s : string)
| meval_call (command : string)
| delete
| reply_document (file_name : string) (data : list ascii) (caption : string)
| edit_text (s : string).

(** The names the script sees. *)
Record Environment := {
  env_message : Message;
  env_m : Message;
  env_print : list string → gmap string pyval → gmap nat string
              → gmap nat string * option PyException;
  env_r : option string;
  env_bot : string;
  env_user : string
}.

(** Running a script against an environment. *)
Fixpoint run_script (env : Environment) (s : script) (files : gmap nat string)
    : gmap nat string * (PyException + option (PyException + string)) :=
  match s with
  | Return v => (files, inr v)
  | Raise e => (files, inl e)
  | CallPrint a kw k =>
      let '(files', r) := env_print env a kw files in
      run_script env (k r) files'
  | Direct effect k => run_script env (k files) (effect files)
  end.

(** The double quote, code point 34. *)
Definition DQUOTE : ascii := "034"%char.

(** [html.escape(s)], with its default [quote=True]. *)
Definition html_escape (s : string) : string :=
  let s := Str.replace "&" "&amp;" s in
  let s := Str.replace "<" "&lt;" s in
  let s := Str.replace ">" "&gt;" s in
  let s := Str.replace DQUOTE "&quot;" s in
  let s := Str.replace "'" "&#x27;" s in
  s.

Section Pipeline.

(** [os.getcwd()] is an absolute path: [getcwd_tail] is what follows its
    leading slash. *)
Variable getcwd_tail : string.

Definition getcwd : string := String "/" getcwd_tail.

(** [traceback.format_list], the standard rendering of a list of frames. *)
Variable format_list : list FrameSummary → list string.

(** [create_traceback_message(error, frames)]; [frames = None] is the
    default of the parameter. An exception of the loop over the frames, or
    of [str(error)] after it, leaves the function. *)
Definition create_traceback_message (error : PyException)
    (frames : option (list FrameSummary)) : PyException + string :=
  let frames := match frames with
                | None => extract_tb error
                | Some frames => frames
                end in
  let base_directory := getcwd in
  match relativize base_directory frames with
  | inl e => inl e
  | inr frames =>
      let traceback_details := Str.join "" (format_list frames) in
      match str_error error with
      | inl e => inl e
      | inr error_details =>
          let error_details :=
            if Str.is_empty error_details then error_details
            else ": " +:+ error_details in
          inr ("Traceback (most recent call last):" +:+ NL
               +:+ traceback_details +:+ type_name error +:+ error_details)
      end
  end.

(** [format_exception_with_traceback(excp)]. *)
Definition format_exception_with_traceback (excp : PyException)
    : PyException + string :=
  let tb := extract_tb excp in
  create_traceback_message excp (Some (stripped_tb tb)).


(** The interpreter: the behaviour of a script text under the bindings of an
    environment. *)
Variable meval : string → Environment → script.

Definition ERROR_PREFIX : string :=
  "<b>Error while executing snippet:</b>" +:+ NL +:+ NL.

(** [execute_code(command_args, execution_environment)]: the pair it
    returns, or the exception that leaves it. [except Exception] lets the
    exceptions that derive from [BaseException] alone pass, and one raised
    in the handler itself, while the traceback is rendered, leaves too. The
    second component is the value of the script, or the rendered traceback,
    a text that is its own [str]. *)
Definition execute_code (command_args : string)
    (execution_environment : Environment) (files : gmap nat string)
    : gmap nat string
      * (PyException + string * option (PyException + string)) :=
  match run_script execution_environment
          (meval command_args execution_environment) files with
  | (files', inr value) => (files', inr ("", value))
  | (files', inl exception) =>
      if derives_Exception exception then
        match format_exception_with_traceback exception with
        | inl e => (files', inl e)
        | inr formatted_traceback =>
            (files', inr (ERROR_PREFIX, Some (inr formatted_traceback)))
        end
      else (files', inl exception)
  end.

Definition LIMIT : nat := 4096.

(** The text [handle_response] builds for the inline reply. *)
Definition render (prefix command_args output : string) : string :=
  let result := prefix +:+ "<b>Input:</b>" +:+ NL in
  let result := result +:+ "<pre><code class='language-python'>"
                +:+ html_escape command_args +:+ "</code></pre>" +:+ NL in
  let result := result +:+ "<b>Output:</b>" +:+ NL in
  let result := result +:+ "<pre><code class='language-python'>"
                +:+ html_escape output +:+ "</code></pre>" +:+ NL in
  result.

(** [handle_response(sent_message, message, prefix, command_args, output)];
    [uuid4] is [str(uuid.uuid4())]. *)
Definition handle_response (prefix command_args output uuid4 : string)
    : list action :=
  if LIMIT <? String.length output then
    let file_name := Str.upper (default "" (head (Str.split "-" uuid4))) +:+ ".TXT" in
    let caption := "Output is too large to be sent as a text message." in
    [delete; reply_document file_name (Str.encode output) caption]
  else [edit_text (render prefix command_args output)].

(** The inner function of [handle_eval], closed over [output_buffer]. *)
Definition print_output (output_buffer : nat) (args : list string)
    (kwargs : gmap string pyval) (files : gmap nat string)
    : gmap nat string * option PyException :=
  let kwargs :=
    if bool_decide ("file" ∈ dom kwargs) then kwargs
    else <["file" := PFile output_buffer]> kwargs in
  py_print args kwargs files.

Definition environment (update : Update) (context : Context)
    (output_buffer : nat) : Environment :=
  let message := effective_message update in
  {| env_message := message;
     env_m := message;
     env_print := print_output output_buffer;
     env_r := reply_to_message message;
     env_bot := bot context;
     env_user := effective_user update |}.

Definition USAGE : string :=
  "To execute Python code, please include "
  +:+ "the code you wish to run. Use the command /run followed by your code.".

Definition PLACEHOLDER : string := "<i>Executing your code...</i>".

(** What a handler leaves behind: the calls it awaited, the exception that
    ended it if one did, and the sinks. *)
Record Outcome := {
  actions : list action;
  raised : option PyException;
  files_after : gmap nat string
}.

(** Lines 76 to 95 of [handle_eval]: the buffer, the environment, the
    execution and the print of its result; the value is [prefix] with
    [output_buffer.getvalue()]. The print of the result calls [str] on it,
    outside any [try]: an exception of its [__str__] leaves the handler,
    and nothing is written. *)
Definition evaluate (update : Update) (context : Context) (command : string)
    (files : gmap nat string)
    : gmap nat string * (PyException + string * string) :=
  let '(output_buffer, files) := StringIO files in
  let env := environment update context output_buffer in
  match execute_code command env files with
  | (files, inl e) => (files, inl e)
  | (files, inr (prefix, execution_result)) =>
      match execution_result with
      | Some (inl e) => (files, inl e)
      | Some (inr r) =>
          let files :=
            (py_print [r] {["file" := PFile output_buffer]} files).1 in
          (files, inr (prefix, getvalue output_buffer files))
      | None => (files, inr (prefix, getvalue output_buffer files))
      end
  end.

(** [handle_eval(update, context)]. *)
Definition handle_eval (update : Update) (context : Context) (uuid4 : string)
    (files : gmap nat string) : Outcome :=
  let message := effective_message update in
  if length (args context) <? 1 then
    {| actions := [reply_text USAGE]; raised := None; files_after := files |}
  else
    match Str.split_ws_1 (text message) !! 1 with
    | None =>
        {| actions := []; raised := Some (IndexError "list index out of range");
           files_after := files |}
    | Some command =>
        match evaluate update context command files with
        | (files, inl e) =>
            {| actions := [reply_text PLACEHOLDER; meval_call command];
               raised := Some e; files_after := files |}
        | (files, inr (prefix, captured)) =>
            let output_text := Str.rstrip captured in
            {| actions := [reply_text PLACEHOLDER; meval_call command]
                          ++ handle_response prefix command output_text uuid4;
               raised := None; files_after := files |}
        end
    end.

End Pipeline.

(** ** The reader of an escaped block *)

(** The character references [html.escape] writes, with the character each
    stands for. *)
Definition references : list (string * ascii) :=
  [("&amp;", "&"%char); ("&lt;", "<"%char); ("&gt;", ">"%char);
   ("&quot;", DQUOTE); ("&#x27;", "'"%char)].

(** The reference [s] starts with, and what follows it. *)
Fixpoint decode_reference (refs : list (string * ascii)) (s : string)
    : option (ascii * string) :=
  match refs with
  | [] => None
  | (r, c) :: refs' =>
      if Str.startswith s r then Some (c, Str.skip (String.length r) s)
      else decode_reference refs' s
  end.

(** Unescaping, left to right: a reference gives its character, any other
    character is kept. Every round consumes at least one character. *)
Fixpoint unescape_rounds (rounds : nat) (s : string) : string :=
  match rounds with
  | O => EmptyString
  | S rounds' =>
      match decode_reference references s with
      | Some (c, rest) => String c (unescape_rounds rounds' rest)
      | None =>
          match s with
          | EmptyString => EmptyString
          | String c rest => String c (unescape_rounds rounds' rest)
          end
      end
  end.

Definition html_unescape (s : string) : string :=
  unescape_rounds (String.length s) s.

(** What [html.escape] makes of one character. *)
Definition escape_char (c : ascii) : string :=
  if Ascii.eqb c "&" then "&amp;"
  else if Ascii.eqb c "<" then "&lt;"
  else if Ascii.eqb c ">" then "&gt;"
  else if Ascii.eqb c DQUOTE then "&quot;"
  else if Ascii.eqb c "'" then "&#x27;"
  else String c EmptyString.

(** ** The specification's reading of the sanitizer *)

(** A file path lies under a directory when it starts with the directory
    followed by a separator. *)
Definition lies_under (directory path : string) : bool :=
  Str.startswith path
    (if Str.endswith directory "/" then directory else directory +:+ "/").

(** A path component as [os.getcwd()] and the frames of a traceback have
    them: not empty, without a separator, and neither [.] nor [..]. *)
Fixpoint no_sep (s : string) : bool :=
  match s with
  | EmptyString => true
  | String c s' => negb (Ascii.eqb c "/") && no_sep s'
  end.

Definition clean (comp : string) : bool :=
  negb (Str.is_empty comp) && no_sep comp
  && negb (String.eqb comp ".") && negb (String.eqb comp "..").

(** The tail of the absolute path with the given components. *)
Definition path_tail (comps : list string) : string := Str.join "/" comps.

(** What the loop of [create_traceback_message] does to one frame. *)
Definition rewritten (base_directory : string) (frame : FrameSummary)
    : FrameSummary :=
  if Str.contains (filename frame) base_directory
  then match posixpath.relpath base_directory (filename frame) base_directory with
       | Some rel => set_filename frame rel
       | None => frame
       end
  else frame.

(** The shape of a reply: a file attachment, or an edit of the placeholder. *)
Definition is_reply_document (a : action) : bool :=
  match a with reply_document _ _ _ => true | _ => false end.

Definition is_file_reply (acts : list action) : bool :=
  existsb is_reply_document acts.

Definition is_meval_call (a : action) : bool :=
  match a with meval_call _ => true | _ => false end.

(** The characters that [html.escape] replaces. *)
Definition markup_char (c : ascii) : bool :=
  Ascii.eqb c "&" || Ascii.eqb c "<" || Ascii.eqb c ">"
  || Ascii.eqb c DQUOTE || Ascii.eqb c "'".

Fixpoint has_markup (s : string) : bool :=
  match s with
  | EmptyString => false
  | String c s' => markup_char c || has_markup s'
  end.


(** ** Sample data *)

Module Sample.

(** The frame of [execute_code] in the handler's own file. *)
Definition handler_frame : FrameSummary :=
  {| filename := "/srv/bot/main.py"; lineno := 103; name := "execute_code";
     line := "return meval_result" |}.

(** A frame of the interpreter, installed next to the working directory. *)
Definition meval_frame : FrameSummary :=
  {| filename := "/srv/bot-env/lib/meval/__init__.py"; lineno := 40;
     name := "meval"; line := "r = await locs[name]()" |}.

(** A frame of the compiled script. *)
Definition snippet_frame : FrameSummary :=
  {| filename := "<string>"; lineno := 1; name := "tmp"; line := "" |}.

(** A frame of a module the script called into. *)
Definition plugin_frame : FrameSummary :=
  {| filename := "/srv/bot/plugins/calc.py"; lineno := 7; name := "div";
     line := "return a / b" |}.

Definition cwd_tail : string := "srv/bot".

Definition ZeroDivisionError : PyException :=
  {| derives_Exception := true; type_name := "ZeroDivisionError";
     str_error := inr "division by zero";
     extract_tb := [handler_frame; meval_frame; snippet_frame; plugin_frame] |}.

(** Raised by the interpreter before the script is compiled. *)
Definition KeyError : PyException :=
  {| derives_Exception := true; type_name := "KeyError";
     str_error := inr "'__package__'";
     extract_tb := [handler_frame; meval_frame] |}.

(** [raise SystemExit]: derives from [BaseException] only. *)
Definition SystemExit : PyException :=
  {| derives_Exception := false; type_name := "SystemExit";
     str_error := inr "";
     extract_tb := [handler_frame; meval_frame; snippet_frame] |}.

(** The frame of the inner function [print_output] of the handler. *)
Definition print_output_frame : FrameSummary :=
  {| filename := "/srv/bot/main.py"; lineno := 80; name := "print_output";
     line := "print(*args, **kwargs)" |}.

(** What the [__str__] of [Unprintable] raises. *)
Definition RuntimeError : PyException :=
  {| derives_Exception := true; type_name := "RuntimeError";
     str_error := inr "no text";
     extract_tb := [handler_frame] |}.

(** An exception of a class of the script, deriving from [Exception],
    whose [__str__] raises. *)
Definition Unprintable : PyException :=
  {| derives_Exception := true; type_name := "Unprintable";
     str_error := inl RuntimeError;
     extract_tb := [handler_frame; meval_frame; snippet_frame] |}.

(** An exception of a call of [print] as it reaches [execute_code]: the
    call was made by the script, and the exception was raised under
    [print_output]. *)
Definition raised_in_print (e : PyException) : PyException :=
  {| derives_Exception := derives_Exception e; type_name := type_name e;
     str_error := str_error e;
     extract_tb := [handler_frame; meval_frame; snippet_frame;
                    print_output_frame] |}.

(** A rendering of the frames, one line each. *)
Definition format_list (frames : list FrameSummary) : list string :=
  map (λ f, "  File " +:+ filename f +:+ ", in " +:+ name f +:+ NL) frames.

(** An interpreter for a few script texts. *)
Definition meval (command : string) (env : Environment) : script :=
  if String.eqb command "1/0" then Raise ZeroDivisionError
  else if String.eqb command "raise SystemExit" then Raise SystemExit
  else if String.eqb command "print('hi')"
       then CallPrint ["hi"] ∅ (λ _, Return None)
  else if String.eqb command "print('hi', file=None); 42"
       then CallPrint ["hi"] {["file" := PNone]} (λ _, Return (Some (inr "42")))
  else if String.eqb command "'x' * 5000"
       then Return (Some (inr (Str.times "x" 5000)))
  else if String.eqb command "raise Unprintable()" then Raise Unprintable
  else if String.eqb command "Unprintable()"
       then Return (Some (inl RuntimeError))
  else if String.eqb command "print('a', sep=1)"
       then CallPrint ["a"] {["sep" := PObject]}
              (λ r, match r with
                    | Some e => Raise (raised_in_print e)
                    | None => Return None
                    end)
  else Return None.


Definition update (t : string) : Update :=
  {| effective_message := {| text := t; reply_to_message := None |};
     effective_user := "user" |}.

Definition context (a : list string) : Context :=
  {| args := a; bot := "bot" |}.

Definition uuid4 : string := "1b9d6bcd-bbfd-4b2d-9b5d-ab8dfbbd4bed".

End Sample.

(** ** Further readings of the code *)

(** [s.isascii()]. *)
Fixpoint isascii (s : string) : bool :=
  match s with
  | EmptyString => true
  | String c s' => (nat_of_ascii c <? 128) && isascii s'
  end.

(** No character of [s] is white space. *)
Fixpoint no_space (s : string) : bool :=
  match s with
  | EmptyString => true
  | String c s' => negb (Str.isspace c) && no_space s'
  end.

(** A script that reaches the sinks through the [print] of its environment
    only, and none of whose calls of [print] passes the keyword [file],
    whatever the calls before it raised. *)
Inductive prints_without_file : script → Prop :=
| pwf_Return (value : option (PyException + string)) :
    prints_without_file (Return value)
| pwf_Raise (e : PyException) : prints_without_file (Raise e)
| pwf_CallPrint (args : list string) (kwargs : gmap string pyval)
    (k : option PyException → script) :
    kwargs !! "file" = None →
    (∀ r, prints_without_file (k r)) →
    prints_without_file (CallPrint args kwargs k).

(** A script that reaches the sinks through the [print] of its environment
    only, with any keywords. *)
Inductive prints_only : script → Prop :=
| po_Return (value : option (PyException + string)) :
    prints_only (Return value)
| po_Raise (e : PyException) : prints_only (Raise e)
| po_CallPrint (args : list string) (kwargs : gmap string pyval)
    (k : option PyException → script) :
    (∀ r, prints_only (k r)) →
    prints_only (CallPrint args kwargs k).

(** A frame of the handler's own module, by its file. *)
Definition handler_module (handler_file : string) (frame : FrameSummary)
    : bool :=
  String.eqb (filename frame) handler_file.

(** An interpreter whose scripts print their own text and return. *)
Definition meval_echo (command : string) (env : Environment) : script :=
  CallPrint [command] ∅ (λ _, Return None).

(** * Properties *)

(** ** Slices *)

Lemma slice_from_index {A} (i : nat) (l : list A) :
  i ≤ length l → slice_from (Z.of_nat i) l = drop i l.
Proof.
  intros Hi. unfold slice_from.
  destruct (Z.ltb_spec (Z.of_nat i) 0) as [Hneg|_]; [lia|].
  f_equal. lia.
Qed.

Lemma slice_from_minus_one {A} (l : list A) :
  slice_from (-1) l = drop (length l - 1) l.
Proof.
  unfold slice_from. change (-1 <? 0)%Z with true. cbv iota.
  f_equal. lia.
Qed.

(** ** The boundary of the sanitizer *)

Lemma first_snip_idx_none tb :
  Forall (λ frame, is_snippet_frame frame = false) tb →
  first_snip_idx tb = (-1)%Z.
Proof.
  intros Hall. unfold first_snip_idx.
  assert (list_find (λ frame, is_snippet_frame frame = true) tb = None) as ->;
    [|done].
  apply list_find_None. eapply Forall_impl; [exact Hall|].
  intros frame Hf. cbv beta in Hf. congruence.
Qed.

Lemma first_snip_idx_split pre frame post :
  Forall (λ f, is_snippet_frame f = false) pre →
  is_snippet_frame frame = true →
  first_snip_idx (pre ++ frame :: post) = Z.of_nat (length pre).
Proof.
  intros Hpre Hframe. unfold first_snip_idx.
  assert (list_find (λ f, is_snippet_frame f = true) (pre ++ frame :: post)
          = Some (length pre, frame)) as ->; [|done].
  apply list_find_Some. split_and!.
  - by rewrite list_lookup_middle.
  - done.
  - intros j y Hj Hlt. rewrite lookup_app_l in Hj by done.
    rewrite Forall_lookup in Hpre. specialize (Hpre j y Hj).
    cbv beta in Hpre. congruence.
Qed.

(** Some frame matches: the list splits at the first one that does. *)
Lemma first_match_split (tb : list FrameSummary) :
  (∃ f, f ∈ tb ∧ is_snippet_frame f = true) →
  ∃ pre frame post,
    tb = pre ++ frame :: post
    ∧ Forall (λ f, is_snippet_frame f = false) pre
    ∧ is_snippet_frame frame = true.
Proof.
  induction tb as [|a tb IH]; intros (f & Hin & Hf).
  - by apply elem_of_nil in Hin.
  - destruct (is_snippet_frame a) eqn:Ha.
    + exists [], a, tb. by split_and!.
    + apply elem_of_cons in Hin as [->|Hin]; [congruence|].
      destruct IH as (pre & frame & post & -> & Hpre & Hframe); [by eauto|].
      exists (a :: pre), frame, post. split_and!; [done| |done].
      by constructor.
Qed.

(** [C1], as amended: when no frame of the extracted traceback has the file
    name ["<string>"] or one that ends with ["ast.py"], the boundary index
    is -1, and the slice from it keeps the last captured frame and nothing
    else; all captured frames are kept only when there is at most one. *)
Theorem C1_no_sentinel_keeps_last_frame (tb : list FrameSummary) :
  Forall (λ frame, is_snippet_frame frame = false) tb →
  first_snip_idx tb = (-1)%Z
  ∧ stripped_tb tb = drop (length tb - 1) tb
  ∧ length (stripped_tb tb) = Nat.min 1 (length tb)
  ∧ (stripped_tb tb = tb ↔ length tb ≤ 1).
Proof.
  intros Hall. pose proof (first_snip_idx_none tb Hall) as Hidx.
  assert (stripped_tb tb = drop (length tb - 1) tb) as Hs.
  { unfold stripped_tb. rewrite Hidx. apply slice_from_minus_one. }
  split_and!; [done|done| |].
  - rewrite Hs, length_drop. lia.
  - rewrite Hs. split.
    + intros Heq. apply (f_equal length) in Heq.
      rewrite length_drop in Heq. lia.
    + intros Hle. replace (length tb - 1) with 0 by lia. done.
Qed.

Lemma C1_witness :
  Forall (λ frame, is_snippet_frame frame = false)
    [Sample.handler_frame; Sample.meval_frame]
  ∧ first_snip_idx [Sample.handler_frame; Sample.meval_frame] = (-1)%Z
  ∧ stripped_tb [Sample.handler_frame; Sample.meval_frame] = [Sample.meval_frame].
Proof.
  assert (Forall (λ frame, is_snippet_frame frame = false)
            [Sample.handler_frame; Sample.meval_frame]) as H
    by (repeat constructor).
  split; [exact H|].
  destruct (C1_no_sentinel_keeps_last_frame _ H) as (H1 & H2 & _).
  split; [exact H1 | exact H2].
Defined.

(** [C1], as stated, fails: an exception raised by the interpreter before
    the script runs has two frames, none of which matches; the boundary
    index is not 0 and the frame of the handler is discarded. *)
Lemma C1_counterexample :
  ¬ (∀ tb : list FrameSummary,
       Forall (λ frame, is_snippet_frame frame = false) tb →
       first_snip_idx tb = 0%Z ∧ stripped_tb tb = tb).
Proof.
  intros H.
  destruct (H (extract_tb Sample.KeyError)) as [H0 _].
  - repeat constructor.
  - vm_compute in H0. discriminate H0.
Qed.

Example stripped_tb_ZeroDivisionError :
  stripped_tb (extract_tb Sample.ZeroDivisionError)
  = [Sample.snippet_frame; Sample.plugin_frame].
Proof. vm_compute. reflexivity. Qed.

(** ** Prefixes and substrings *)

Lemma app_cons (a : ascii) (s t : string) :
  String a s +:+ t = String a (s +:+ t).
Proof. reflexivity. Qed.

Lemma app_empty_l (s : string) : "" +:+ s = s.
Proof. reflexivity. Qed.

Lemma app_empty_r (s : string) : s +:+ "" = s.
Proof. induction s as [|a s IH]; [done|]. by rewrite app_cons, IH. Qed.

Lemma app_assoc_str (s t u : string) : (s +:+ t) +:+ u = s +:+ t +:+ u.
Proof. induction s as [|a s IH]; [done|]. by rewrite !app_cons, IH. Qed.

Lemma length_app_str (s t : string) :
  String.length (s +:+ t) = String.length s + String.length t.
Proof. induction s as [|a s IH]; [done|]. rewrite app_cons. cbn. by rewrite IH. Qed.

Lemma startswith_refl_app (p s : string) : Str.startswith (p +:+ s) p = true.
Proof.
  induction p as [|a p IH]; [done|].
  rewrite app_cons. cbn. rewrite Ascii.eqb_refl. exact IH.
Qed.

Lemma startswith_app_l (s p q : string) :
  Str.startswith s (p +:+ q) = true → Str.startswith s p = true.
Proof.
  revert s. induction p as [|a p IH]; intros s H; [done|].
  destruct s as [|b s]; [discriminate H|].
  cbn in *. apply andb_true_iff in H as [Hab H].
  rewrite Hab. cbn. by apply IH.
Qed.

Lemma contains_startswith (s p : string) :
  Str.startswith s p = true → Str.contains s p = true.
Proof. intros H. destruct s; cbn; rewrite H; done. Qed.

Lemma contains_nonempty (s : string) (c : ascii) (p : string) :
  Str.contains s (String c p) = true → Str.is_empty s = false.
Proof. destruct s; [discriminate|done]. Qed.

(** A path under the directory contains the directory. *)
Lemma lies_under_contains (directory path : string) :
  lies_under directory path = true → Str.contains path directory = true.
Proof.
  unfold lies_under. intros H. apply contains_startswith.
  destruct (Str.endswith directory "/"); [done|].
  by eapply startswith_app_l.
Qed.

(** ** The rewriting of file names *)

Lemma relpath_nonempty (cwd path start : string) :
  Str.is_empty path = false → is_Some (posixpath.relpath cwd path start).
Proof.
  intros H. unfold posixpath.relpath. rewrite H.
  destruct (_ ++ _); eauto.
Qed.

(** With an absolute working directory the loop raises nothing, and treats
    each frame on its own. *)
Lemma relativize_getcwd (tail : string) (frames : list FrameSummary) :
  relativize (getcwd tail) frames = inr (map (rewritten (getcwd tail)) frames).
Proof.
  induction frames as [|frame rest IH]; [done|].
  cbn [relativize map]. rewrite IH.
  assert (∀ x y : FrameSummary, x = y →
            inr (x :: map (rewritten (getcwd tail)) rest)
            = (inr (y :: map (rewritten (getcwd tail)) rest)
               : PyException + list FrameSummary)) as Hhead
    by (by intros x y ->).
  destruct (Str.contains (filename frame) (getcwd tail)) eqn:Hc.
  - pose proof (contains_nonempty _ _ _ Hc) as Hne.
    destruct (relpath_nonempty (getcwd tail) (filename frame) (getcwd tail) Hne)
      as [rel Hrel].
    rewrite Hrel. apply Hhead. unfold rewritten. by rewrite Hc, Hrel.
  - apply Hhead. unfold rewritten. by rewrite Hc.
Qed.

(** ** Paths under the working directory *)

Lemma split_no_sep (a : string) : no_sep a = true → Str.split "/" a = [a].
Proof.
  induction a as [|c a IH]; [done|].
  cbn. intros [Hc Ha]%andb_true_iff. apply negb_true_iff in Hc.
  by rewrite Hc, IH.
Qed.

Lemma split_app_sep (a t : string) :
  no_sep a = true →
  Str.split "/" (a +:+ String "/" t) = a :: Str.split "/" t.
Proof.
  induction a as [|c a IH]; [done|].
  cbn [no_sep]. intros [Hc Ha]%andb_true_iff. apply negb_true_iff in Hc.
  rewrite app_cons. cbn [Str.split]. by rewrite Hc, IH.
Qed.

Lemma clean_no_sep (c : string) : clean c = true → no_sep c = true.
Proof. unfold clean. rewrite !andb_true_iff. tauto. Qed.

Lemma clean_nonempty (c : string) : clean c = true → c ≠ "".
Proof. unfold clean. rewrite !andb_true_iff. intros [[[H _] _] _] ->. done. Qed.

Lemma split_join (l : list string) :
  Forall (λ c, clean c = true) l → l ≠ [] →
  Str.split "/" (Str.join "/" l) = l.
Proof.
  induction l as [|x l IH]; [done|]. intros Hall _.
  apply Forall_cons in Hall as [Hx Hl].
  destruct l as [|y l].
  - cbn. by apply split_no_sep, clean_no_sep.
  - change (Str.join "/" (x :: y :: l))
      with (x +:+ String "/" (Str.join "/" (y :: l))).
    rewrite split_app_sep by by apply clean_no_sep.
    by rewrite IH.
Qed.

Lemma fold_norm_step_clean (n : nat) (l acc : list string) :
  Forall (λ c, clean c = true) l →
  fold_left (posixpath.norm_step n) l acc = acc ++ l.
Proof.
  revert acc. induction l as [|c l IH]; intros acc Hall.
  - by rewrite app_nil_r.
  - apply Forall_cons in Hall as [Hc Hl]. cbn [fold_left].
    assert (posixpath.norm_step n acc c = acc ++ [c]) as ->.
    { unfold posixpath.norm_step. unfold clean in Hc.
      rewrite !andb_true_iff, !negb_true_iff in Hc.
      destruct Hc as [[[Hne _] Hdot] Hdd].
      assert (String.eqb c "" = false) as -> by by destruct c.
      by rewrite Hdot, Hdd. }
    rewrite IH by done. by rewrite <- app_assoc.
Qed.

Lemma clean_first_char (x : string) :
  clean x = true → ∃ c r, x = String c r ∧ Ascii.eqb c "/" = false.
Proof.
  intros Hx. pose proof (clean_no_sep x Hx) as Hs.
  destruct x as [|c r]; [by apply clean_nonempty in Hx|].
  cbn in Hs. apply andb_true_iff in Hs as [Hc _]. apply negb_true_iff in Hc.
  eauto.
Qed.

(** The tail of a path of clean components does not start with a slash. *)
Lemma path_tail_no_slash (l : list string) :
  Forall (λ c, clean c = true) l →
  Str.startswith (path_tail l) "/" = false.
Proof.
  intros Hall. destruct l as [|x l]; [done|].
  apply Forall_cons in Hall as [Hx _].
  destruct (clean_first_char x Hx) as (c & r & -> & Hc).
  rewrite Ascii.eqb_sym in Hc.
  unfold path_tail.
  assert (∃ t, Str.join "/" (String c r :: l) = String c t) as [t ->].
  { destruct l; [by eexists|]. eexists. cbn [Str.join]. by rewrite app_cons. }
  cbn [Str.startswith]. by rewrite Hc.
Qed.

Lemma split_path (l : list string) :
  Forall (λ c, clean c = true) l →
  filter (λ x, x ≠ "") (Str.split "/" (String "/" (path_tail l))) = l.
Proof.
  intros Hall. cbn [Str.split]. rewrite Ascii.eqb_refl.
  rewrite filter_cons_False by (intros H; by apply H).
  destruct l as [|x l]; [done|].
  unfold path_tail. rewrite split_join by done.
  induction Hall as [|y l' Hy Hl IH]; [done|].
  rewrite filter_cons_True by by apply clean_nonempty.
  by rewrite IH.
Qed.

(** An absolute path of clean components is in normal form. *)
Lemma normpath_clean (l : list string) :
  Forall (λ c, clean c = true) l →
  posixpath.normpath (String "/" (path_tail l)) = String "/" (path_tail l).
Proof.
  intros Hall. unfold posixpath.normpath. cbn [Str.is_empty].
  assert (Str.startswith (String "/" (path_tail l)) "/" = true) as -> by done.
  assert (Str.startswith (String "/" (path_tail l)) "//" = false) as ->.
  { pose proof (path_tail_no_slash l Hall) as H. cbn. cbn in H.
    destruct (path_tail l); [done|]. by rewrite andb_true_r in *. }
  cbn [andb]. cbn [Str.split]. rewrite Ascii.eqb_refl. cbn [fold_left].
  change (posixpath.norm_step 1 [] "") with (@nil string).
  destruct l as [|x l]; [done|].
  unfold path_tail. rewrite split_join by done.
  rewrite fold_norm_step_clean by done. done.
Qed.

Lemma commonprefix_len_app (cs rs : list string) :
  posixpath.commonprefix_len cs (cs ++ rs) = length cs.
Proof.
  induction cs as [|c cs IH]; [by destruct rs|].
  cbn. by rewrite String.eqb_refl, IH.
Qed.

Lemma skip_last_app (x b : string) :
  b ≠ "" →
  Str.skip (String.length (x +:+ b) - 1) (x +:+ b)
  = Str.skip (String.length b - 1) b.
Proof.
  intros Hb. induction x as [|c x IH]; [done|].
  rewrite app_cons. cbn [String.length].
  assert (1 ≤ String.length (x +:+ b)) as Hlen.
  { rewrite length_app_str. destruct b; [done|]. cbn. lia. }
  replace (S (String.length (x +:+ b)) - 1)
    with (S (String.length (x +:+ b) - 1)) by lia.
  cbn [Str.skip]. exact IH.
Qed.

Lemma skip_last_no_sep (b : string) :
  no_sep b = true → b ≠ "" →
  ∃ c, Str.skip (String.length b - 1) b = String c ""
       ∧ Ascii.eqb c "/" = false.
Proof.
  induction b as [|c b IH]; [done|]. intros Hs _.
  cbn [no_sep] in Hs. apply andb_true_iff in Hs as [Hc Hb].
  apply negb_true_iff in Hc.
  destruct b as [|d b]; [by exists c|].
  destruct IH as (e & He & Hne); [done|done|].
  exists e. split; [|done].
  cbn [String.length] in *.
  replace (S (S (String.length b)) - 1) with (S (S (String.length b) - 1)) by lia.
  cbn [Str.skip]. exact He.
Qed.

(** A text that ends in a clean component does not end with a slash. *)
Lemma endswith_app_clean (x b : string) :
  clean b = true → Str.endswith (x +:+ b) "/" = false.
Proof.
  intros Hb. unfold Str.endswith.
  rewrite skip_last_app by by apply clean_nonempty.
  destruct (skip_last_no_sep b) as (c & -> & Hc);
    [by apply clean_no_sep | by apply clean_nonempty |].
  cbn [String.eqb]. by rewrite Hc, andb_false_r.
Qed.

Lemma is_empty_app (s t : string) :
  Str.is_empty s = false → Str.is_empty (s +:+ t) = false.
Proof. by destruct s. Qed.

(** On clean components [join] puts one slash between two of them. *)
Lemma join_clean (p : list string) (a : string) :
  Str.is_empty a = false → Str.endswith a "/" = false →
  Forall (λ c, clean c = true) p →
  posixpath.join a p = Str.join "/" (a :: p).
Proof.
  revert a. induction p as [|b p IH]; intros a Ha Hend Hall; [done|].
  apply Forall_cons in Hall as [Hb Hp].
  unfold posixpath.join. cbn [fold_left].
  assert (posixpath.join_step a b = a +:+ "/" +:+ b) as ->.
  { unfold posixpath.join_step.
    destruct (clean_first_char b Hb) as (c & r & -> & Hc).
    rewrite Ascii.eqb_sym in Hc. cbn [Str.startswith]. rewrite Hc.
    cbn [andb]. by rewrite Ha, Hend. }
  change (fold_left posixpath.join_step p (a +:+ "/" +:+ b))
    with (posixpath.join (a +:+ "/" +:+ b) p).
  rewrite IH; [| by apply is_empty_app | | done].
  - destruct p as [|c p]; [done|].
    cbn [Str.join]. by rewrite !app_assoc_str.
  - rewrite <- app_assoc_str. by apply endswith_app_clean.
Qed.

(** [relpath] of a file under the directory, from the directory, is the
    file's path from there on. *)
Lemma relpath_under (cwd : string) (cs rs : list string) :
  Forall (λ c, clean c = true) cs →
  Forall (λ c, clean c = true) rs →
  rs ≠ [] →
  posixpath.relpath cwd (String "/" (path_tail (cs ++ rs)))
    (String "/" (path_tail cs))
  = Some (path_tail rs).
Proof.
  intros Hcs Hrs Hne. unfold posixpath.relpath. cbn [Str.is_empty].
  unfold posixpath.abspath, posixpath.isabs, posixpath.nonempty_parts.
  cbn [Str.startswith]. rewrite Ascii.eqb_refl. cbn [andb].
  rewrite !normpath_clean by (try apply Forall_app; done).
  rewrite !split_path by (try apply Forall_app; done).
  rewrite commonprefix_len_app, Nat.sub_diag, drop_app_length.
  cbn [replicate app].
  destruct rs as [|a p]; [done|].
  apply Forall_cons in Hrs as [Ha Hp]. f_equal.
  apply join_clean; [|by apply (endswith_app_clean "")|done].
  destruct a; [by apply clean_nonempty in Ha|done].
Qed.

Lemma path_tail_app (cs rs : list string) :
  cs ≠ [] → rs ≠ [] →
  path_tail (cs ++ rs) = path_tail cs +:+ "/" +:+ path_tail rs.
Proof.
  intros Hcs Hrs. unfold path_tail.
  induction cs as [|c cs IH]; [done|].
  destruct cs as [|d cs].
  - destruct rs; done.
  - change (Str.join "/" ((c :: d :: cs) ++ rs))
      with (c +:+ "/" +:+ Str.join "/" ((d :: cs) ++ rs)).
    rewrite IH by done. cbn [Str.join]. by rewrite !app_assoc_str.
Qed.

(** Such a file lies under the directory. *)
Lemma lies_under_path (cs rs : list string) :
  rs ≠ [] →
  lies_under (String "/" (path_tail cs)) (String "/" (path_tail (cs ++ rs)))
  = true.
Proof.
  intros Hrs. unfold lies_under.
  destruct cs as [|c cs].
  - reflexivity.
  - rewrite path_tail_app by done.
    rewrite <- !app_cons.
    destruct (Str.endswith _ _).
    + apply startswith_refl_app.
    + rewrite <- app_assoc_str. apply startswith_refl_app.
Qed.

(** [C8], as amended: the loop rewrites the file name of a frame to
    [relpath] of it from the working directory exactly when the working
    directory occurs in the file name as a substring, and leaves every other
    frame as it is; line number, function name and source line are never
    touched. A file under the working directory passes the test, and its
    name becomes its path from the working directory on; the test does not
    tell whether a file that passes it lies under the directory. *)
Theorem C8_rewrites_when_cwd_occurs_in_filename
    (tail : string) (frames : list FrameSummary) :
  ∃ frames',
    relativize (getcwd tail) frames = inr frames'
    ∧ length frames' = length frames
    ∧ ∀ i frame, frames !! i = Some frame →
        ∃ frame',
          frames' !! i = Some frame'
          ∧ lineno frame' = lineno frame
          ∧ name frame' = name frame
          ∧ line frame' = line frame
          ∧ (Str.contains (filename frame) (getcwd tail) = true →
             posixpath.relpath (getcwd tail) (filename frame) (getcwd tail)
             = Some (filename frame'))
          ∧ (Str.contains (filename frame) (getcwd tail) = false →
             frame' = frame)
          ∧ (lies_under (getcwd tail) (filename frame) = true →
             Str.contains (filename frame) (getcwd tail) = true)
          ∧ (∀ cs rs,
               Forall (λ c, clean c = true) cs →
               Forall (λ c, clean c = true) rs →
               rs ≠ [] →
               tail = path_tail cs →
               filename frame = String "/" (path_tail (cs ++ rs)) →
               lies_under (getcwd tail) (filename frame) = true
               ∧ filename frame' = path_tail rs).
Proof.
  exists (map (rewritten (getcwd tail)) frames).
  split; [apply relativize_getcwd|]. split; [apply length_map|].
  intros i frame Hi. exists (rewritten (getcwd tail) frame).
  split; [by rewrite list_lookup_fmap, Hi|].
  assert (∀ cs rs,
            Forall (λ c, clean c = true) cs →
            Forall (λ c, clean c = true) rs →
            rs ≠ [] →
            tail = path_tail cs →
            filename frame = String "/" (path_tail (cs ++ rs)) →
            lies_under (getcwd tail) (filename frame) = true
            ∧ posixpath.relpath (getcwd tail) (filename frame) (getcwd tail)
              = Some (path_tail rs)) as Hunder.
  { intros cs rs Hcs Hrs Hne -> ->. unfold getcwd. split.
    - by apply lies_under_path.
    - by apply relpath_under. }
  unfold rewritten.
  destruct (Str.contains (filename frame) (getcwd tail)) eqn:Hc.
  - pose proof (contains_nonempty _ _ _ Hc) as Hne.
    destruct (relpath_nonempty (getcwd tail) (filename frame) (getcwd tail) Hne)
      as [rel Hrel].
    rewrite Hrel. cbn. split_and!; try done.
    intros cs rs Hcs Hrs Hrne Htail Hfile.
    destruct (Hunder cs rs Hcs Hrs Hrne Htail Hfile) as [Hu Hr].
    split; [done|]. congruence.
  - split_and!; try done.
    + intros Hu. apply lies_under_contains in Hu. congruence.
    + intros cs rs Hcs Hrs Hrne Htail Hfile.
      destruct (Hunder cs rs Hcs Hrs Hrne Htail Hfile) as [Hu _].
      apply lies_under_contains in Hu. congruence.
Qed.

Lemma C8_witness :
  ∃ frames',
    relativize (getcwd Sample.cwd_tail)
      [Sample.handler_frame; Sample.snippet_frame; Sample.plugin_frame]
    = inr frames'
    ∧ map filename frames' = ["main.py"; "<string>"; "plugins/calc.py"].
Proof.
  destruct (C8_rewrites_when_cwd_occurs_in_filename Sample.cwd_tail
              [Sample.handler_frame; Sample.snippet_frame; Sample.plugin_frame])
    as (frames' & Hrel & _).
  exists frames'. split; [exact Hrel|].
  vm_compute in Hrel. injection Hrel as <-. reflexivity.
Defined.

(** [C8], as stated, fails: with the working directory [/srv/bot], the file
    [/srv/bot-env/lib/meval/__init__.py] does not lie under it, and yet its
    name is rewritten. *)
Lemma C8_counterexample :
  lies_under (getcwd Sample.cwd_tail) (filename Sample.meval_frame) = false
  ∧ relativize (getcwd Sample.cwd_tail) [Sample.meval_frame]
    = inr [set_filename Sample.meval_frame "../bot-env/lib/meval/__init__.py"]
  ∧ set_filename Sample.meval_frame "../bot-env/lib/meval/__init__.py"
    ≠ Sample.meval_frame.
Proof.
  split_and!.
  - vm_compute. reflexivity.
  - vm_compute. reflexivity.
  - intros H. apply (f_equal filename) in H. vm_compute in H. discriminate H.
Qed.

(** ** The frames of the sanitized traceback *)

(** What [create_traceback_message] returns for an absolute working
    directory: the exception of [str(error)] when it raises, and otherwise
    the heading, the rendering of the frames after the rewriting of their
    file names, the name of the class and the message. *)
Lemma create_traceback_message_spec (tail : string)
    (format_list : list FrameSummary → list string)
    (error : PyException) (frames : option (list FrameSummary)) :
  create_traceback_message tail format_list error frames
  = match str_error error with
    | inl e => inl e
    | inr msg =>
        inr ("Traceback (most recent call last):" +:+ NL
             +:+ Str.join ""
                   (format_list
                      (map (rewritten (getcwd tail))
                         (default (extract_tb error) frames)))
             +:+ type_name error
             +:+ (if Str.is_empty msg then msg else ": " +:+ msg))
    end.
Proof.
  unfold create_traceback_message.
  assert ((match frames with Some fs => fs | None => extract_tb error end)
          = default (extract_tb error) frames) as -> by by destruct frames.
  by rewrite relativize_getcwd.
Qed.

(** [C4], as amended: when some frame of the traceback has the file name
    ["<string>"] or one that ends with ["ast.py"], the traceback splits at
    the first such frame; the boundary index is its position, every frame
    before it is discarded, that frame and every frame after it are
    retained, and the text of the sanitized traceback renders the retained
    frames and no other. Nothing is said of what the retained frames
    belong to: a frame of the handler that comes after the boundary is
    retained like any other. *)
Theorem C4_sentinel_cuts_at_first_match (tail : string)
    (format_list : list FrameSummary → list string) (excp : PyException) :
  (∃ f, f ∈ extract_tb excp ∧ is_snippet_frame f = true) →
  ∃ pre frame post,
    extract_tb excp = pre ++ frame :: post
    ∧ Forall (λ f, is_snippet_frame f = false) pre
    ∧ is_snippet_frame frame = true
    ∧ first_snip_idx (extract_tb excp) = Z.of_nat (length pre)
    ∧ stripped_tb (extract_tb excp) = frame :: post
    ∧ format_exception_with_traceback tail format_list excp
      = create_traceback_message tail format_list excp (Some (frame :: post))
    ∧ ∀ msg, str_error excp = inr msg →
        format_exception_with_traceback tail format_list excp
        = inr ("Traceback (most recent call last):" +:+ NL
               +:+ Str.join ""
                     (format_list
                        (map (rewritten (getcwd tail)) (frame :: post)))
               +:+ type_name excp
               +:+ (if Str.is_empty msg then msg else ": " +:+ msg)).
Proof.
  intros Hex.
  destruct (first_match_split _ Hex) as (pre & frame & post & Htb & Hpre & Hframe).
  assert (stripped_tb (extract_tb excp) = frame :: post) as Hs.
  { rewrite Htb. unfold stripped_tb. rewrite first_snip_idx_split by done.
    rewrite slice_from_index by (rewrite length_app; lia).
    by rewrite drop_app_length. }
  exists pre, frame, post. split_and!; [done..| | | |].
  - rewrite Htb. by apply first_snip_idx_split.
  - done.
  - unfold format_exception_with_traceback. by rewrite Hs.
  - intros msg Hmsg. unfold format_exception_with_traceback.
    by rewrite Hs, create_traceback_message_spec, Hmsg.
Qed.

Lemma C4_witness :
  format_exception_with_traceback Sample.cwd_tail Sample.format_list
    Sample.ZeroDivisionError
  = inr ("Traceback (most recent call last):" +:+ NL
         +:+ "  File <string>, in tmp" +:+ NL
         +:+ "  File plugins/calc.py, in div" +:+ NL
         +:+ "ZeroDivisionError: division by zero").
Proof.
  destruct (C4_sentinel_cuts_at_first_match Sample.cwd_tail Sample.format_list
              Sample.ZeroDivisionError)
    as (pre & frame & post & Htb & _ & _ & _ & Hs & _ & Htext).
  - exists Sample.snippet_frame. split; [|reflexivity].
    apply elem_of_cons; right. apply elem_of_cons; right.
    apply elem_of_cons; left. reflexivity.
  - rewrite (Htext "division by zero" eq_refl).
    vm_compute in Hs. injection Hs as <- <-. vm_compute. reflexivity.
Defined.

(** [C4], as stated, fails: when the [print] of the script raises, the
    frame of [print_output], in the file of the handler, comes after the
    frame of the script; it is retained, and the sanitized traceback shows
    a frame of the plumbing, of the same file as the frame of
    [execute_code] that was discarded. *)
Lemma C4_counterexample :
  ¬ (∀ excp : PyException,
       (∃ f, f ∈ extract_tb excp ∧ is_snippet_frame f = true) →
       Forall (λ f, handler_module "/srv/bot/main.py" f = false)
         (stripped_tb (extract_tb excp))).
Proof.
  intros H.
  specialize (H (Sample.raised_in_print (TypeError "sep must be None or a string"))).
  assert (stripped_tb
            (extract_tb (Sample.raised_in_print
                           (TypeError "sep must be None or a string")))
          = [Sample.snippet_frame; Sample.print_output_frame]) as Hs
    by (vm_compute; reflexivity).
  rewrite Hs in H.
  assert (Forall (λ f, handler_module "/srv/bot/main.py" f = false)
            [Sample.snippet_frame; Sample.print_output_frame]) as Hall.
  { apply H. exists Sample.snippet_frame. split; [|reflexivity].
    apply elem_of_cons; right. apply elem_of_cons; right.
    apply elem_of_cons; left. reflexivity. }
  apply Forall_cons in Hall as [_ Hall].
  apply Forall_cons in Hall as [Hp _].
  vm_compute in Hp. discriminate Hp.
Qed.

(** ** Escaping and its inverse *)

Lemma replace_app (old : ascii) (new s t : string) :
  Str.replace old new (s +:+ t) = Str.replace old new s +:+ Str.replace old new t.
Proof.
  induction s as [|a s IH]; [done|].
  rewrite app_cons. cbn [Str.replace]. by rewrite IH, app_assoc_str.
Qed.

Lemma html_escape_app (s t : string) :
  html_escape (s +:+ t) = html_escape s +:+ html_escape t.
Proof. unfold html_escape. by rewrite !replace_app. Qed.

Lemma html_escape_one (c : ascii) :
  html_escape (String c EmptyString) = escape_char c.
Proof.
  unfold escape_char.
  destruct (Ascii.eqb_spec c "&") as [->|H1]; [reflexivity|].
  destruct (Ascii.eqb_spec c "<") as [->|H2]; [reflexivity|].
  destruct (Ascii.eqb_spec c ">") as [->|H3]; [reflexivity|].
  destruct (Ascii.eqb_spec c DQUOTE) as [->|H4]; [reflexivity|].
  destruct (Ascii.eqb_spec c "'") as [->|H5]; [reflexivity|].
  apply Ascii.eqb_neq in H1, H2, H3, H4, H5.
  unfold html_escape.
  cbn [Str.replace]. rewrite H1, app_empty_r.
  cbn [Str.replace]. rewrite H2, app_empty_r.
  cbn [Str.replace]. rewrite H3, app_empty_r.
  cbn [Str.replace]. rewrite H4, app_empty_r.
  cbn [Str.replace]. rewrite H5, app_empty_r.
  reflexivity.
Qed.

(** [html.escape] works character by character. *)
Lemma html_escape_cons (c : ascii) (s : string) :
  html_escape (String c s) = escape_char c +:+ html_escape s.
Proof.
  change (String c s) with (String c EmptyString +:+ s).
  by rewrite html_escape_app, html_escape_one.
Qed.

Lemma escape_char_length (c : ascii) : 1 ≤ String.length (escape_char c).
Proof.
  unfold escape_char.
  repeat match goal with |- context [Ascii.eqb ?a ?b] => destruct (Ascii.eqb a b) end;
    cbn; lia.
Qed.

Lemma html_escape_length (s : string) :
  String.length s ≤ String.length (html_escape s).
Proof.
  induction s as [|c s IH]; [done|].
  rewrite html_escape_cons, length_app_str.
  pose proof (escape_char_length c). cbn. lia.
Qed.

(** One round of the reader undoes the escaping of one character. *)
Lemma unescape_round (c : ascii) (rest : string) (rounds : nat) :
  unescape_rounds (S rounds) (escape_char c +:+ rest)
  = String c (unescape_rounds rounds rest).
Proof.
  unfold escape_char.
  destruct (Ascii.eqb_spec c "&") as [->|H1]; [reflexivity|].
  destruct (Ascii.eqb_spec c "<") as [->|H2]; [reflexivity|].
  destruct (Ascii.eqb_spec c ">") as [->|H3]; [reflexivity|].
  destruct (Ascii.eqb_spec c DQUOTE) as [->|H4]; [reflexivity|].
  destruct (Ascii.eqb_spec c "'") as [->|H5]; [reflexivity|].
  rewrite app_cons, app_empty_l.
  assert (Ascii.eqb "&" c = false) as Hamp
    by (apply Ascii.eqb_neq; congruence).
  cbn [unescape_rounds decode_reference references Str.startswith].
  rewrite Hamp. reflexivity.
Qed.

Lemma unescape_rounds_escape (s : string) (rounds : nat) :
  String.length s ≤ rounds → unescape_rounds rounds (html_escape s) = s.
Proof.
  revert rounds. induction s as [|c s IH]; intros rounds Hlen.
  - destruct rounds; reflexivity.
  - destruct rounds as [|rounds]; [cbn in Hlen; lia|].
    rewrite html_escape_cons, unescape_round.
    f_equal. apply IH. cbn in Hlen. lia.
Qed.

Lemma html_unescape_escape (s : string) : html_unescape (html_escape s) = s.
Proof.
  unfold html_unescape. apply unescape_rounds_escape, html_escape_length.
Qed.

(** Two texts with the same escaping are the same text. *)
Corollary html_escape_inj (s t : string) :
  html_escape s = html_escape t → s = t.
Proof.
  intros H. rewrite <- (html_unescape_escape s), <- (html_unescape_escape t).
  by rewrite H.
Qed.

(** [C6]: in the inline reply the script text and the output text stand
    escaped, each in its own block between the same fixed pieces of markup,
    and the escaping is reversible: unescaping the block of the input gives
    the script text back and unescaping the block of the output gives the
    output back, character for character, for every text. *)
Theorem C6_unescape_escape (prefix command_args output uuid4 : string) :
  String.length output ≤ 4096 →
  ∃ input_block output_block,
    handle_response prefix command_args output uuid4
    = [edit_text
         (prefix +:+ "<b>Input:</b>" +:+ NL
          +:+ "<pre><code class='language-python'>" +:+ input_block
          +:+ "</code></pre>" +:+ NL
          +:+ "<b>Output:</b>" +:+ NL
          +:+ "<pre><code class='language-python'>" +:+ output_block
          +:+ "</code></pre>" +:+ NL)]
    ∧ input_block = html_escape command_args
    ∧ output_block = html_escape output
    ∧ html_unescape input_block = command_args
    ∧ html_unescape output_block = output.
Proof.
  intros Hlen. exists (html_escape command_args), (html_escape output).
  split_and!; [|done|done|apply html_unescape_escape..].
  unfold handle_response, LIMIT.
  destruct (Nat.ltb_spec 4096 (String.length output)) as [Hlt|_]; [lia|].
  unfold render. by rewrite !app_assoc_str.
Qed.

Lemma C6_witness :
  ∃ input_block output_block,
    handle_response "" "print('<b>')" "<b>" Sample.uuid4
    = [edit_text
         ("<b>Input:</b>" +:+ NL
          +:+ "<pre><code class='language-python'>" +:+ input_block
          +:+ "</code></pre>" +:+ NL
          +:+ "<b>Output:</b>" +:+ NL
          +:+ "<pre><code class='language-python'>" +:+ output_block
          +:+ "</code></pre>" +:+ NL)]
    ∧ html_unescape input_block = "print('<b>')"
    ∧ html_unescape output_block = "<b>".
Proof.
  destruct (C6_unescape_escape "" "print('<b>')" "<b>" Sample.uuid4)
    as (input_block & output_block & H & _ & _ & Hin & Hout); [cbn; lia|].
  exists input_block, output_block. split; [exact H|]. split; assumption.
Defined.

Lemma handle_response_file (prefix command_args output uuid4 : string) :
  is_file_reply (handle_response prefix command_args output uuid4)
  = (LIMIT <? String.length output).
Proof.
  unfold handle_response. by destruct (LIMIT <? String.length output).
Qed.

(** [C2], as amended: the choice between the inline reply and the file
    attachment depends on the number of characters of the output text
    alone, the file being chosen exactly when there are more than 4096;
    neither the script text nor the prefix, nor the length of the rendering
    that embeds them, takes part in it, and equal outputs give equal
    shapes. *)
Theorem C2_shape_is_decided_by_output_length
    (prefix command_args output uuid4 : string) :
  is_file_reply (handle_response prefix command_args output uuid4)
  = (4096 <? String.length output)
  ∧ ∀ prefix' command_args' output' uuid4',
      String.length output' = String.length output →
      is_file_reply (handle_response prefix' command_args' output' uuid4')
      = is_file_reply (handle_response prefix command_args output uuid4).
Proof.
  split; [apply handle_response_file|].
  intros p c o u Hlen. by rewrite !handle_response_file, Hlen.
Qed.

Lemma C2_witness :
  is_file_reply (handle_response "" "print(1)" "1" "1b9d6bcd-bbfd-4b2d-9b5d")
  = false
  ∧ is_file_reply
      (handle_response ERROR_PREFIX "1/0" "2" "1b9d6bcd-bbfd-4b2d-9b5d")
    = false.
Proof.
  destruct (C2_shape_is_decided_by_output_length
              "" "print(1)" "1" "1b9d6bcd-bbfd-4b2d-9b5d") as [H1 H2].
  split; [exact H1|].
  rewrite (H2 ERROR_PREFIX "1/0" "2" "1b9d6bcd-bbfd-4b2d-9b5d" eq_refl).
  exact H1.
Defined.

(** [C2], as stated, fails: no function of the byte length of the combined
    rendering decides the shape. Two requests whose renderings have the
    same number of bytes get different shapes: 4097 characters of output
    for a script of one character go to a file, 4096 characters of output
    for a script of two are sent inline. *)
Lemma C2_counterexample :
  ¬ (∃ decide : nat → bool,
       ∀ prefix command_args output uuid4,
         is_file_reply (handle_response prefix command_args output uuid4)
         = decide (length (Str.encode (render prefix command_args output)))).
Proof.
  intros [decide H].
  pose proof (H "" "a" (Str.times "x" 4097) "") as H1.
  pose proof (H "" "aa" (Str.times "x" 4096) "") as H2.
  assert (length (Str.encode (render "" "a" (Str.times "x" 4097)))
          = length (Str.encode (render "" "aa" (Str.times "x" 4096)))) as Hlen
    by (vm_compute; reflexivity).
  rewrite Hlen, <- H2 in H1.
  vm_compute in H1. discriminate H1.
Qed.

(** ** Sinks and the print binding *)

Lemma getvalue_write_eq (f : nat) (s : string) (files : gmap nat string) :
  getvalue f (write f s files) = getvalue f files +:+ s.
Proof. unfold write, getvalue at 1. by rewrite lookup_insert_eq. Qed.

Lemma getvalue_write_ne (f g : nat) (s : string) (files : gmap nat string) :
  f ≠ g → getvalue g (write f s files) = getvalue g files.
Proof. intros H. unfold write, getvalue. by rewrite lookup_insert_ne. Qed.

(** The buffer of a request is a new sink, and not the standard output. *)
Lemma StringIO_fresh (files : gmap nat string) :
  (StringIO files).1 ≠ sys_stdout
  ∧ files !! (StringIO files).1 = None
  ∧ getvalue (StringIO files).1 (StringIO files).2 = "".
Proof.
  unfold StringIO. cbn [fst snd].
  pose proof (is_fresh ({[sys_stdout]} ∪ dom files)) as Hfresh.
  split_and!.
  - intros Heq. apply Hfresh. rewrite Heq. set_solver.
  - apply not_elem_of_dom. set_solver.
  - unfold getvalue. by rewrite lookup_insert_eq.
Qed.


(** What [print] does when its keywords are in order. *)
Lemma py_print_ok (args : list string) (kwargs : gmap string pyval)
    (files : gmap nat string) (sep end_ : string) :
  dom kwargs ⊆ print_keywords →
  text_keyword kwargs "sep" " " = inr sep →
  text_keyword kwargs "end" NL = inr end_ →
  py_print args kwargs files
  = match kwargs !! "file" with
    | None | Some PNone =>
        (write sys_stdout (Str.join sep args +:+ end_) files, None)
    | Some (PFile f) => (write f (Str.join sep args +:+ end_) files, None)
    | Some _ => (files, Some (AttributeError "object has no attribute 'write'"))
    end.
Proof.
  intros Hdom Hsep Hend. unfold py_print.
  rewrite bool_decide_eq_true_2 by done. by rewrite Hsep, Hend.
Qed.

(** Whatever its keywords, [print] writes to no sink but its target. *)
Lemma py_print_other_sink (args : list string) (kwargs : gmap string pyval)
    (files : gmap nat string) (g : nat) :
  (match kwargs !! "file" with
   | None | Some PNone => sys_stdout ≠ g
   | Some (PFile f) => f ≠ g
   | Some _ => True
   end) →
  getvalue g (py_print args kwargs files).1 = getvalue g files.
Proof.
  intros Htarget. unfold py_print.
  destruct (bool_decide (dom kwargs ⊆ print_keywords)); [|done].
  destruct (text_keyword kwargs "sep" " ") as [e|sep]; [done|].
  destruct (text_keyword kwargs "end" NL) as [e|end_]; [done|].
  destruct (kwargs !! "file") as [[| |f|]|]; cbn [fst]; try done;
    by apply getvalue_write_ne.
Qed.

(** The print of the result at the end of [handle_eval]. *)
Lemma py_print_result (r : string) (output_buffer : nat)
    (files : gmap nat string) :
  py_print [r] {["file" := PFile output_buffer]} files
  = (write output_buffer (r +:+ NL) files, None).
Proof.
  rewrite (py_print_ok _ _ _ " " NL).
  - by rewrite lookup_singleton_eq.
  - rewrite dom_singleton_L. unfold print_keywords. set_solver.
  - unfold text_keyword. by rewrite lookup_singleton_ne.
  - unfold text_keyword. by rewrite lookup_singleton_ne.
Qed.




(** ** Trailing white space *)

Lemma rstrip_all_space (w : string) :
  Str.all_space w = true → Str.rstrip w = "".
Proof.
  induction w as [|c w IH]; [done|].
  cbn. intros [Hc Hw]%andb_true_iff. by rewrite IH, Hc.
Qed.



(** What [rstrip] removes is white space. *)
Lemma rstrip_split (s : string) :
  ∃ w, s = Str.rstrip s +:+ w ∧ Str.all_space w = true.
Proof.
  induction s as [|a s (w & Hs & Hw)].
  - by exists "".
  - cbn [Str.rstrip].
    destruct (Str.is_empty (Str.rstrip s)) eqn:He, (Str.isspace a) eqn:Ha;
      cbn [andb].
    + exists (String a s). split; [done|].
      destruct (Str.rstrip s); [|discriminate He].
      rewrite app_empty_l in Hs. subst w. cbn. by rewrite Ha.
    + exists w. rewrite app_cons. by rewrite <- Hs.
    + exists w. rewrite app_cons. by rewrite <- Hs.
    + exists w. rewrite app_cons. by rewrite <- Hs.
Qed.

(** ** The handler *)

Section Handler.

Variable getcwd_tail : string.
Variable format_list : list FrameSummary → list string.
Variable meval : string → Environment → script.

Local Abbreviation format_exception_with_traceback :=
  (format_exception_with_traceback getcwd_tail format_list).
Local Abbreviation execute_code := (execute_code getcwd_tail format_list meval).
Local Abbreviation evaluate := (evaluate getcwd_tail format_list meval).
Local Abbreviation handle_eval := (handle_eval getcwd_tail format_list meval).









(** [C7]: a [/run] without script text is answered with the usage reminder
    and nothing else; the interpreter is not called, no placeholder is sent,
    nothing is raised and no sink is created or written. *)
Theorem C7_no_script_text_only_usage_reply
    (update : Update) (context : Context) (uuid4 : string)
    (files : gmap nat string) :
  args context = [] →
  handle_eval update context uuid4 files
  = {| actions := [reply_text USAGE]; raised := None; files_after := files |}
  ∧ existsb is_meval_call (actions (handle_eval update context uuid4 files))
    = false
  ∧ reply_text PLACEHOLDER ∉ actions (handle_eval update context uuid4 files).
Proof.
  intros Hargs.
  assert (handle_eval update context uuid4 files
          = {| actions := [reply_text USAGE]; raised := None;
               files_after := files |}) as ->.
  { unfold handle_eval. by rewrite Hargs. }
  split_and!; [done|done|].
  cbn. intros [H|H]%elem_of_cons; [discriminate H|].
  by apply elem_of_nil in H.
Qed.



End Handler.

Lemma C7_witness :
  handle_eval Sample.cwd_tail Sample.format_list Sample.meval
    (Sample.update "/run") (Sample.context []) Sample.uuid4 ∅
  = {| actions := [reply_text USAGE]; raised := None; files_after := ∅ |}.
Proof.
  destruct (C7_no_script_text_only_usage_reply Sample.cwd_tail
              Sample.format_list Sample.meval (Sample.update "/run")
              (Sample.context []) Sample.uuid4 ∅ eq_refl) as [H _].
  exact H.
Defined.



(** The other way out of [execute_code]: an exception of a class of the
    script that derives from [Exception], with a [__str__] that raises.
    What leaves is the exception of [__str__], raised while the traceback
    is rendered. *)
Example Exception_with_raising_str_leaves :
  let env := environment (Sample.update "/run raise Unprintable()")
               (Sample.context ["raise"; "Unprintable()"]) 1 in
  let o := handle_eval Sample.cwd_tail Sample.format_list Sample.meval
             (Sample.update "/run raise Unprintable()")
             (Sample.context ["raise"; "Unprintable()"]) Sample.uuid4 ∅ in
  derives_Exception Sample.Unprintable = true
  ∧ execute_code Sample.cwd_tail Sample.format_list Sample.meval
      "raise Unprintable()" env {[1 := ""]}
    = ({[1 := ""]}, inl Sample.RuntimeError)
  ∧ raised o = Some Sample.RuntimeError
  ∧ actions o = [reply_text PLACEHOLDER; meval_call "raise Unprintable()"].
Proof. cbv zeta. split_and!; vm_compute; reflexivity. Qed.

(** A value whose [__str__] raises: [execute_code] returns it, and the
    print of the result ends the handler. *)
Example value_with_raising_str_leaves :
  let o := handle_eval Sample.cwd_tail Sample.format_list Sample.meval
             (Sample.update "/run Unprintable()")
             (Sample.context ["Unprintable()"]) Sample.uuid4 ∅ in
  raised o = Some Sample.RuntimeError
  ∧ actions o = [reply_text PLACEHOLDER; meval_call "Unprintable()"].
Proof. cbv zeta. split_and!; vm_compute; reflexivity. Qed.


Example C5_print_and_value :
  (evaluate Sample.cwd_tail Sample.format_list Sample.meval
     (Sample.update "/run print('hi', file=None); 42")
     (Sample.context ["print('hi',"; "file=None);"; "42"])
     "print('hi', file=None); 42" ∅).2
  = inr ("", "42" +:+ NL).
Proof. vm_compute. reflexivity. Qed.

(** ** Executions that differ in trailing white space *)




(** ** The scenarios of the specification *)

Example scenario_print_hi :
  actions (handle_eval Sample.cwd_tail Sample.format_list Sample.meval
             (Sample.update "/run print('hi')") (Sample.context ["print('hi')"])
             Sample.uuid4 ∅)
  = [reply_text PLACEHOLDER; meval_call "print('hi')";
     edit_text (render "" "print('hi')" "hi")].
Proof. vm_compute. reflexivity. Qed.

Example scenario_division_by_zero :
  ∃ traceback_details,
    actions (handle_eval Sample.cwd_tail Sample.format_list Sample.meval
               (Sample.update "/run 1/0") (Sample.context ["1/0"])
               Sample.uuid4 ∅)
    = [reply_text PLACEHOLDER; meval_call "1/0";
       edit_text (render ERROR_PREFIX "1/0"
                    (traceback_details
                     +:+ "ZeroDivisionError: division by zero"))]
    ∧ Str.contains traceback_details "main.py" = false
    ∧ Str.contains traceback_details "meval" = false.
Proof.
  exists ("Traceback (most recent call last):" +:+ NL
          +:+ "  File <string>, in tmp" +:+ NL
          +:+ "  File plugins/calc.py, in div" +:+ NL).
  split_and!; vm_compute; reflexivity.
Qed.

Example scenario_large_output :
  actions (handle_eval Sample.cwd_tail Sample.format_list Sample.meval
             (Sample.update "/run 'x' * 5000") (Sample.context ["'x'"; "*"; "5000"])
             Sample.uuid4 ∅)
  = [reply_text PLACEHOLDER; meval_call "'x' * 5000"; delete;
     reply_document "1B9D6BCD.TXT" (Str.encode (Str.times "x" 5000))
       "Output is too large to be sent as a text message."].
Proof. vm_compute. reflexivity. Qed.

Example relpath_inside :
  posixpath.relpath "/srv/bot" "/srv/bot/plugins/x.py" "/srv/bot"
  = Some "plugins/x.py".
Proof. vm_compute. reflexivity. Qed.

Example relpath_self :
  posixpath.relpath "/srv/bot" "/srv/bot" "/srv/bot" = Some ".".
Proof. vm_compute. reflexivity. Qed.

Example split_ws_1_run :
  Str.split_ws_1 "/run  print(1)  " = ["/run"; "print(1)  "].
Proof. vm_compute. reflexivity. Qed.

Example rstrip_blanks : Str.rstrip (" a b " +:+ NL +:+ " ") = " a b".
Proof. vm_compute. reflexivity. Qed.

Example html_escape_markup :
  html_escape "a<b & 'c' > d" = "a&lt;b &amp; &#x27;c&#x27; &gt; d".
Proof. vm_compute. reflexivity. Qed.

(** * Further properties of the pipeline *)

(** ** The frames the sanitizer retains *)

(** The slice is a [drop], by less than the length unless the list is
    empty. *)
Lemma stripped_tb_drop (tb : list FrameSummary) :
  ∃ k, stripped_tb tb = drop k tb ∧ (k < length tb ∨ tb = []).
Proof.
  unfold stripped_tb, first_snip_idx.
  destruct (list_find _ tb) as [[i x]|] eqn:Hfind.
  - apply list_find_Some in Hfind as (Hi & _ & _).
    apply lookup_lt_Some in Hi.
    exists i. split; [apply slice_from_index; lia | by left].
  - exists (length tb - 1). split; [apply slice_from_minus_one|].
    destruct tb; [by right | left; cbn; lia].
Qed.

Lemma last_drop_lt {A} (k : nat) (l : list A) :
  k < length l → last (drop k l) = last l.
Proof.
  intros Hk. rewrite <- (take_drop k l) at 2.
  rewrite last_app. destruct (last (drop k l)) eqn:Hl; [done|].
  apply last_None in Hl. apply (f_equal length) in Hl.
  rewrite length_drop in Hl. cbn in Hl. lia.
Qed.

(** Whatever the traceback, what the sanitizer retains is a suffix of it
    that ends with the frame in which the exception was raised; it is empty
    only when the traceback is. *)
Theorem stripped_tb_keeps_innermost_frame (tb : list FrameSummary) :
  stripped_tb tb `suffix_of` tb
  ∧ last (stripped_tb tb) = last tb
  ∧ (stripped_tb tb = [] ↔ tb = []).
Proof.
  destruct (stripped_tb_drop tb) as (k & -> & [Hk| ->]).
  - split_and!; [apply suffix_drop | by apply last_drop_lt |].
    split; intros H.
    + apply (f_equal length) in H. rewrite length_drop in H. cbn in H. lia.
    + subst tb. cbn in Hk. lia.
  - by rewrite drop_nil.
Qed.

(** The boundary index is -1 or a position of the traceback; it is -1
    exactly when no frame matches, and otherwise the frame at it matches
    and none before it does. *)
Theorem first_snip_idx_range (tb : list FrameSummary) :
  (-1 ≤ first_snip_idx tb < Z.of_nat (length tb))%Z
  ∧ (first_snip_idx tb = (-1)%Z
     ↔ Forall (λ frame, is_snippet_frame frame = false) tb)
  ∧ ∀ i : nat, first_snip_idx tb = Z.of_nat i →
      (∃ frame, tb !! i = Some frame ∧ is_snippet_frame frame = true)
      ∧ ∀ j frame, j < i → tb !! j = Some frame →
          is_snippet_frame frame = false.
Proof.
  unfold first_snip_idx.
  destruct (list_find _ tb) as [[i x]|] eqn:Hfind.
  - apply list_find_Some in Hfind as (Hi & Hx & Hbefore).
    pose proof (lookup_lt_Some _ _ _ Hi) as Hlt.
    split; [lia|]. split.
    + split; [lia|]. intros Hall.
      rewrite Forall_lookup in Hall. specialize (Hall i x Hi).
      cbv beta in Hall. congruence.
    + intros i' Hi'. apply Nat2Z.inj in Hi'. subst i'.
      split; [by eauto|]. intros j frame Hj Hjf.
      specialize (Hbefore j frame Hjf Hj). by destruct (is_snippet_frame frame).
  - apply list_find_None in Hfind.
    split; [lia|]. split.
    + split; [|done]. intros _. eapply Forall_impl; [exact Hfind|].
      intros frame Hf. cbv beta in Hf. by destruct (is_snippet_frame frame).
    + intros i Hi. lia.
Qed.

(** Sanitizing twice retains what sanitizing once does. *)
Theorem stripped_tb_idempotent (tb : list FrameSummary) :
  stripped_tb (stripped_tb tb) = stripped_tb tb.
Proof.
  destruct (decide (Forall (λ frame, is_snippet_frame frame = false) tb))
    as [Hall|Hsome].
  - assert (stripped_tb tb = drop (length tb - 1) tb) as Hs.
    { unfold stripped_tb. rewrite first_snip_idx_none by done.
      apply slice_from_minus_one. }
    assert (Forall (λ frame, is_snippet_frame frame = false) (stripped_tb tb))
      as Hall' by (rewrite Hs; by apply Forall_drop).
    unfold stripped_tb at 1. rewrite first_snip_idx_none by done.
    rewrite slice_from_minus_one, Hs, length_drop.
    rewrite drop_drop. f_equal. lia.
  - apply not_Forall_Exists in Hsome; [|apply _].
    apply Exists_exists in Hsome as (f & Hin & Hf).
    destruct (first_match_split tb) as (pre & frame & post & -> & Hpre & Hframe).
    { exists f. split; [done|].
      destruct (is_snippet_frame f) eqn:Hm; [done|]. exfalso. by apply Hf. }
    assert (stripped_tb (pre ++ frame :: post) = frame :: post) as ->.
    { unfold stripped_tb. rewrite first_snip_idx_split by done.
      rewrite slice_from_index by (rewrite length_app; lia).
      by rewrite drop_app_length. }
    unfold stripped_tb.
    change (frame :: post) with ([] ++ frame :: post) at 1.
    rewrite (first_snip_idx_split [] frame post) by done. done.
Qed.

(** ** When the rewriting of file names can raise *)

Lemma contains_empty (p : string) : Str.contains "" p = true ↔ p = "".
Proof. destruct p; cbn; split; congruence. Qed.

Lemma relpath_None (cwd path start : string) :
  posixpath.relpath cwd path start = None ↔ path = "".
Proof.
  split.
  - intros H. destruct path as [|c path]; [done|].
    destruct (relpath_nonempty cwd (String c path) start eq_refl) as [r Hr].
    congruence.
  - by intros ->.
Qed.

(** The loop over the frames raises, and then the [ValueError] of
    [relpath], exactly when the directory is the empty text and some frame
    has an empty file name; in every other case it rewrites frame by
    frame. *)
Theorem relativize_raises_iff (base_directory : string)
    (frames : list FrameSummary) :
  (base_directory = "" ∧ Exists (λ f, filename f = "") frames →
   relativize base_directory frames = inl (ValueError "no path specified"))
  ∧ (¬ (base_directory = "" ∧ Exists (λ f, filename f = "") frames) →
     relativize base_directory frames
     = inr (map (rewritten base_directory) frames)).
Proof.
  induction frames as [|frame rest [IHraise IHok]].
  - split; [|done]. intros [_ H]. by apply Exists_nil in H.
  - assert (rewritten base_directory frame
            = if Str.contains (filename frame) base_directory
              then match posixpath.relpath base_directory (filename frame)
                           base_directory with
                   | Some rel => set_filename frame rel
                   | None => frame
                   end
              else frame) as Hrw by done.
    split.
    + intros [-> Hex]. cbn [relativize].
      destruct (filename frame) as [|c fn] eqn:Hfn.
      * done.
      * apply Exists_cons in Hex as [Hex|Hex]; [congruence|].
        rewrite IHraise by done.
        destruct (Str.contains (String c fn) ""); [|done].
        by destruct (posixpath.relpath "" (String c fn) "").
    + intros Hno. cbn [relativize map]. rewrite Hrw.
      assert (¬ (base_directory = "" ∧ Exists (λ f, filename f = "") rest))
        as Hrest.
      { intros [Hb Hex]. apply Hno. split; [done|]. by apply Exists_cons_tl. }
      rewrite IHok by done.
      destruct (Str.contains (filename frame) base_directory) eqn:Hc; [|done].
      destruct (posixpath.relpath base_directory (filename frame)
                  base_directory) as [rel|] eqn:Hrel; [done|].
      exfalso. apply relpath_None in Hrel. rewrite Hrel in Hc.
      apply contains_empty in Hc. apply Hno. split; [done|].
      by apply Exists_cons_hd.
Qed.

Lemma relativize_raises_iff_witness :
  relativize "" [Sample.snippet_frame; set_filename Sample.snippet_frame ""]
  = inl (ValueError "no path specified")
  ∧ relativize "srv" [Sample.snippet_frame; set_filename Sample.snippet_frame ""]
    = inr [Sample.snippet_frame; set_filename Sample.snippet_frame ""].
Proof.
  split.
  - apply (relativize_raises_iff ""
             [Sample.snippet_frame; set_filename Sample.snippet_frame ""]).
    split; [reflexivity|]. apply Exists_cons_tl, Exists_cons_hd. reflexivity.
  - apply (relativize_raises_iff "srv"
             [Sample.snippet_frame; set_filename Sample.snippet_frame ""]).
    intros [H _]. discriminate H.
Defined.

(** ** File names without a separator *)

Lemma startswith_slash_no_sep (s t : string) :
  Str.startswith s (String "/" t) = true → no_sep s = false.
Proof.
  destruct s as [|c s]; [done|]. cbn [Str.startswith no_sep].
  intros [Hc _]%andb_true_iff. apply Ascii.eqb_eq in Hc. subst c. done.
Qed.

Lemma contains_slash_no_sep (s t : string) :
  Str.contains s (String "/" t) = true → no_sep s = false.
Proof.
  induction s as [|c s IH]; [done|].
  intros [H|H]%orb_true_iff.
  - by eapply startswith_slash_no_sep.
  - cbn [no_sep]. rewrite IH by done. apply andb_false_r.
Qed.

(** A frame whose file name has no slash, as the frames of the script
    itself, named ["<string>"], keeps its name whatever the working
    directory is; a traceback made of such frames passes the loop as it
    is. *)
Theorem relativize_keeps_names_without_separator (tail : string)
    (frames : list FrameSummary) :
  Forall (λ f, no_sep (filename f) = true) frames →
  relativize (getcwd tail) frames = inr frames.
Proof.
  intros Hall. rewrite relativize_getcwd. f_equal.
  induction Hall as [|frame rest Hf Hrest IH]; [done|].
  cbn [map]. rewrite IH. f_equal. unfold rewritten.
  destruct (Str.contains (filename frame) (getcwd tail)) eqn:Hc; [|done].
  apply contains_slash_no_sep in Hc. congruence.
Qed.

Lemma relativize_keeps_names_witness :
  relativize (getcwd Sample.cwd_tail) [Sample.snippet_frame; Sample.snippet_frame]
  = inr [Sample.snippet_frame; Sample.snippet_frame].
Proof.
  apply (relativize_keeps_names_without_separator Sample.cwd_tail
           [Sample.snippet_frame; Sample.snippet_frame]).
  repeat constructor.
Defined.

(** ** The text of the traceback *)

Lemma skip_app (x p : string) : Str.skip (String.length x) (x +:+ p) = p.
Proof. induction x as [|c x IH]; [by destruct p|]. by rewrite app_cons. Qed.

Lemma endswith_app (x p : string) : Str.endswith (x +:+ p) p = true.
Proof.
  unfold Str.endswith. rewrite length_app_str.
  replace (String.length x + String.length p - String.length p)
    with (String.length x) by lia.
  rewrite skip_app, String.eqb_refl, andb_true_r.
  apply Nat.leb_le. lia.
Qed.

(** With the working directory of a process, [create_traceback_message]
    raises exactly when [str(error)] does, and then what [str(error)]
    raised. When [str(error)] gives a message, the text starts with the
    heading line and ends with the name of the exception class, followed by
    a colon, a space and the message when the message is not empty, and by
    nothing when it is. *)
Theorem create_traceback_message_text (tail : string)
    (format_list : list FrameSummary → list string)
    (error : PyException) (frames : option (list FrameSummary)) :
  match str_error error with
  | inl e => create_traceback_message tail format_list error frames = inl e
  | inr msg =>
      ∃ s,
        create_traceback_message tail format_list error frames = inr s
        ∧ Str.startswith s ("Traceback (most recent call last):" +:+ NL) = true
        ∧ Str.endswith s
            (type_name error
             +:+ (if Str.is_empty msg then "" else ": " +:+ msg)) = true
  end.
Proof.
  rewrite create_traceback_message_spec.
  destruct (str_error error) as [e|msg]; [done|].
  eexists. split; [reflexivity|]. split.
  - rewrite <- app_assoc_str. apply startswith_refl_app.
  - rewrite <- !app_assoc_str.
    destruct (Str.is_empty msg) eqn:He.
    + destruct msg; [|discriminate He].
      rewrite !app_empty_r. apply endswith_app.
    + rewrite app_assoc_str. apply endswith_app.
Qed.

(** ** What escaping does to a text *)

Lemma contains_char_app (a b : string) (c : ascii) :
  Str.contains (a +:+ b) (String c "")
  = Str.contains a (String c "") || Str.contains b (String c "").
Proof.
  induction a as [|x a IH].
  - rewrite app_empty_l. done.
  - rewrite app_cons. cbn [Str.contains Str.startswith].
    rewrite IH, !andb_true_r. by rewrite orb_assoc.
Qed.

Lemma escape_char_plain (c : ascii) :
  markup_char c = false → escape_char c = String c "".
Proof.
  unfold markup_char, escape_char. rewrite !orb_false_iff.
  intros [[[[-> ->] ->] ->] ->]. done.
Qed.

Lemma escape_char_markup (c : ascii) :
  markup_char c = true →
  ∃ r, escape_char c = String "&" r ∧ 3 ≤ String.length r ≤ 5.
Proof.
  unfold markup_char, escape_char. intros H.
  destruct (Ascii.eqb c "&"); [eexists; split; [done|cbn; lia]|].
  destruct (Ascii.eqb c "<"); [eexists; split; [done|cbn; lia]|].
  destruct (Ascii.eqb c ">"); [eexists; split; [done|cbn; lia]|].
  destruct (Ascii.eqb c DQUOTE); [eexists; split; [done|cbn; lia]|].
  destruct (Ascii.eqb c "'"); [eexists; split; [done|cbn; lia]|].
  discriminate H.
Qed.

Lemma escape_char_no (c x : ascii) :
  markup_char x = true → x ≠ "&"%char →
  Str.contains (escape_char c) (String x "") = false.
Proof.
  intros Hx Hamp.
  assert (x = "<" ∨ x = ">" ∨ x = DQUOTE ∨ x = "'")%char as Hcases.
  { unfold markup_char in Hx. rewrite !orb_true_iff, !Ascii.eqb_eq in Hx.
    tauto. }
  unfold escape_char.
  destruct (Ascii.eqb_spec c "&") as [|H1];
    [destruct Hcases as [->|[->|[->| ->]]]; reflexivity|].
  destruct (Ascii.eqb_spec c "<") as [|H2];
    [destruct Hcases as [->|[->|[->| ->]]]; reflexivity|].
  destruct (Ascii.eqb_spec c ">") as [|H3];
    [destruct Hcases as [->|[->|[->| ->]]]; reflexivity|].
  destruct (Ascii.eqb_spec c DQUOTE) as [|H4];
    [destruct Hcases as [->|[->|[->| ->]]]; reflexivity|].
  destruct (Ascii.eqb_spec c "'") as [|H5];
    [destruct Hcases as [->|[->|[->| ->]]]; reflexivity|].
  cbn [Str.contains Str.startswith]. rewrite andb_true_r, !orb_false_r.
  apply Ascii.eqb_neq. destruct Hcases as [->|[->|[->| ->]]]; congruence.
Qed.

(** The escaped text has no [<], no [>] and no quote of either kind left in
    it: nothing of the script or of its output can open or close a tag or
    an attribute of the reply. *)
Theorem html_escape_leaves_no_markup (s : string) :
  Str.contains (html_escape s) "<" = false
  ∧ Str.contains (html_escape s) ">" = false
  ∧ Str.contains (html_escape s) (String DQUOTE "") = false
  ∧ Str.contains (html_escape s) "'" = false.
Proof.
  induction s as [|c s (IH1 & IH2 & IH3 & IH4)]; [done|].
  rewrite html_escape_cons, !contains_char_app, IH1, IH2, IH3, IH4.
  rewrite !orb_false_r.
  split_and!; by apply escape_char_no.
Qed.

(** Escaping never shortens a text and makes it at most six times as
    long. *)
Theorem html_escape_length_bounds (s : string) :
  String.length s ≤ String.length (html_escape s) ≤ 6 * String.length s.
Proof.
  induction s as [|c s IH]; [cbn; lia|].
  rewrite html_escape_cons, length_app_str. cbn [String.length].
  destruct (markup_char c) eqn:Hc.
  - destruct (escape_char_markup c Hc) as (r & -> & Hr). cbn [String.length]. lia.
  - rewrite escape_char_plain by done. cbn [String.length]. lia.
Qed.

(** Escaping changes a text exactly when one of the five characters [&],
    [<], [>], the double and the single quote occurs in it. *)
Theorem html_escape_fixes_plain_text (s : string) :
  html_escape s = s ↔ has_markup s = false.
Proof.
  induction s as [|c s IH]; [done|].
  rewrite html_escape_cons. cbn [has_markup].
  destruct (markup_char c) eqn:Hc.
  - split; [|done]. intros H. exfalso.
    destruct (escape_char_markup c Hc) as (r & Hr & Hlen).
    apply (f_equal String.length) in H.
    rewrite length_app_str, Hr in H. cbn [String.length] in H.
    pose proof (html_escape_length s). lia.
  - rewrite escape_char_plain by done. rewrite app_cons, app_empty_l.
    cbn [orb]. rewrite <- IH. split; [by intros [= ->]|by intros ->].
Qed.

(** The text of an inline reply has the prefix, 127 characters of markup
    and the two escaped texts; it is at least as long as prefix, script and
    output together with the markup. *)
Theorem render_length (prefix command_args output : string) :
  String.length (render prefix command_args output)
  = String.length prefix + 127
    + String.length (html_escape command_args)
    + String.length (html_escape output)
  ∧ String.length prefix + 127 + String.length command_args
    + String.length output
    ≤ String.length (render prefix command_args output).
Proof.
  assert (String.length (render prefix command_args output)
          = String.length prefix + 127
            + String.length (html_escape command_args)
            + String.length (html_escape output)) as Hlen.
  { unfold render. rewrite !length_app_str. cbn. lia. }
  split; [exact Hlen|]. rewrite Hlen.
  pose proof (html_escape_length command_args).
  pose proof (html_escape_length output). lia.
Qed.

(** ** The file attachment *)


Lemma encode_char_length (c : ascii) : 1 ≤ length (Str.encode_char c) ≤ 2.
Proof.
  unfold Str.encode_char. destruct (_ <? 128); cbn; lia.
Qed.

Lemma encode_length_lower (s : string) :
  String.length s ≤ length (Str.encode s).
Proof.
  induction s as [|c s IH]; [cbn; lia|].
  cbn [Str.encode String.length]. rewrite length_app.
  pose proof (encode_char_length c). lia.
Qed.


Lemma split_head (sep : ascii) (a b : string) :
  Str.contains a (String sep "") = false →
  head (Str.split sep (a +:+ String sep b)) = Some a.
Proof.
  induction a as [|c a IH].
  - intros _. rewrite app_empty_l. cbn. by rewrite Ascii.eqb_refl.
  - cbn [Str.contains Str.startswith]. rewrite andb_true_r.
    intros [Hc Ha]%orb_false_iff. rewrite Ascii.eqb_sym in Hc.
    rewrite app_cons. cbn [Str.split]. rewrite Hc.
    specialize (IH Ha).
    destruct (Str.split sep (a +:+ String sep b)) as [|w ws]; [done|].
    cbn in IH. injection IH as ->. done.
Qed.

Lemma upper_char_idempotent (c : ascii) :
  Str.upper_char (Str.upper_char c) = Str.upper_char c.
Proof. destruct c as [[] [] [] [] [] [] [] []]; reflexivity. Qed.

Lemma upper_idempotent (s : string) : Str.upper (Str.upper s) = Str.upper s.
Proof.
  induction s as [|c s IH]; [done|].
  cbn [Str.upper]. by rewrite upper_char_idempotent, IH.
Qed.

Lemma upper_app (s t : string) :
  Str.upper (s +:+ t) = Str.upper s +:+ Str.upper t.
Proof.
  induction s as [|c s IH]; [done|].
  rewrite app_cons. cbn [Str.upper]. by rewrite IH, app_cons.
Qed.

Lemma upper_length (s : string) : String.length (Str.upper s) = String.length s.
Proof. induction s as [|c s IH]; [done|]. cbn. by rewrite IH. Qed.

(** The name of the attachment is made of the first group of the
    identifier, the part before its first hyphen, in upper case, and of the
    extension [.TXT]: four characters more than the group, and unchanged by
    a further [upper]. The group is of ASCII characters, as the hexadecimal
    digits of an identifier are. *)
Theorem attachment_name (prefix command_args output group rest : string) :
  4096 < String.length output →
  isascii group = true →
  Str.contains group "-" = false →
  ∃ data caption,
    handle_response prefix command_args output (group +:+ String "-" rest)
    = [delete; reply_document (Str.upper group +:+ ".TXT") data caption]
    ∧ String.length (Str.upper group +:+ ".TXT") = String.length group + 4
    ∧ Str.upper (Str.upper group +:+ ".TXT") = Str.upper group +:+ ".TXT".
Proof.
  intros Hlen _ Hgroup. unfold handle_response, LIMIT.
  destruct (Nat.ltb_spec 4096 (String.length output)) as [_|Hge]; [|lia].
  rewrite split_head by done. cbn [default].
  do 2 eexists. split; [reflexivity|]. split.
  - rewrite length_app_str, upper_length. cbn. lia.
  - by rewrite upper_app, upper_idempotent.
Qed.

Lemma attachment_name_witness :
  ∃ data caption,
    handle_response "" "'x' * 5000" (Str.times "x" 5000)
      ("1b9d6bcd" +:+ String "-" "bbfd-4b2d-9b5d-ab8dfbbd4bed")
    = [delete; reply_document "1B9D6BCD.TXT" data caption].
Proof.
  destruct (attachment_name "" "'x' * 5000" (Str.times "x" 5000)
              "1b9d6bcd" "bbfd-4b2d-9b5d-ab8dfbbd4bed")
    as (data & caption & H & _);
    [vm_compute; lia | reflexivity | reflexivity |].
  exists data, caption. exact H.
Defined.

(** ** What a run does to the sinks *)

Lemma write_grows (f g : nat) (s : string) (files : gmap nat string) :
  ∃ t, getvalue g (write f s files) = getvalue g files +:+ t.
Proof.
  destruct (decide (f = g)) as [->|Hne].
  - exists s. apply getvalue_write_eq.
  - exists "". rewrite app_empty_r. by apply getvalue_write_ne.
Qed.

Lemma py_print_grows (args : list string) (kwargs : gmap string pyval)
    (files : gmap nat string) (g : nat) :
  ∃ t, getvalue g (py_print args kwargs files).1 = getvalue g files +:+ t.
Proof.
  assert (∃ t, getvalue g files = getvalue g files +:+ t) as Hsame
    by (exists ""; by rewrite app_empty_r).
  unfold py_print.
  destruct (bool_decide (dom kwargs ⊆ print_keywords)); [|done].
  destruct (text_keyword kwargs "sep" " ") as [e|sep]; [done|].
  destruct (text_keyword kwargs "end" NL) as [e|end_]; [done|].
  destruct (kwargs !! "file") as [[| |f|]|]; cbn [fst]; try done;
    apply write_grows.
Qed.

Lemma print_output_unfold (output_buffer : nat) (args : list string)
    (kwargs : gmap string pyval) (files : gmap nat string) :
  print_output output_buffer args kwargs files
  = py_print args
      (if bool_decide ("file" ∈ dom kwargs) then kwargs
       else <["file" := PFile output_buffer]> kwargs) files.
Proof. reflexivity. Qed.

(** The binding only appends: at the end of the run of a script that
    reaches the sinks through the [print] of its environment only,
    whatever keywords it passes and however it ends, every sink holds what
    it held before, followed by what the run added. *)
Theorem run_script_appends (update : Update) (context : Context)
    (output_buffer : nat) (s : script) (files : gmap nat string) (g : nat) :
  prints_only s →
  ∃ t,
    getvalue g (run_script (environment update context output_buffer) s files).1
    = getvalue g files +:+ t.
Proof.
  intros Hs. revert files.
  induction Hs as [v|e|args kwargs k Hk IH]; intros files.
  - exists "". by rewrite app_empty_r.
  - exists "". by rewrite app_empty_r.
  - cbn [run_script environment env_print].
    destruct (print_output output_buffer args kwargs files) as [files1 r] eqn:Hp.
    destruct (py_print_grows args
                (if bool_decide ("file" ∈ dom kwargs) then kwargs
                 else <["file" := PFile output_buffer]> kwargs) files g)
      as [t1 Ht1].
    rewrite <- print_output_unfold, Hp in Ht1. cbn [fst] in Ht1.
    destruct (IH r files1) as [t2 Ht2].
    exists (t1 +:+ t2).
    cbn [environment] in Ht2. rewrite Ht2, Ht1. apply app_assoc_str.
Qed.

Lemma run_script_appends_witness :
  ∃ t,
    getvalue 1
      (run_script (environment (Sample.update "/run x") (Sample.context ["x"]) 1)
         (CallPrint ["a"] {["file" := PFile 1]}
            (λ _, CallPrint ["b"] ∅ (λ _, Return None)))
         {[1 := "before"]}).1
    = "before" +:+ t.
Proof.
  assert (prints_only
            (CallPrint ["a"] {["file" := PFile 1]}
               (λ _, CallPrint ["b"] ∅ (λ _, Return None)))) as Hs.
  { apply po_CallPrint. intros r. apply po_CallPrint. intros r'.
    apply po_Return. }
  exact (run_script_appends (Sample.update "/run x") (Sample.context ["x"]) 1
           _ {[1 := "before"]} 1 Hs).
Defined.

Lemma print_output_other_sink (output_buffer : nat) (args : list string)
    (kwargs : gmap string pyval) (files : gmap nat string) (g : nat) :
  kwargs !! "file" = None → g ≠ output_buffer →
  getvalue g (print_output output_buffer args kwargs files).1
  = getvalue g files.
Proof.
  intros Hnone Hg. rewrite print_output_unfold.
  rewrite bool_decide_eq_false_2 by by rewrite not_elem_of_dom.
  apply py_print_other_sink. rewrite lookup_insert_eq. congruence.
Qed.

Lemma run_script_other_sinks (update : Update) (context : Context)
    (output_buffer : nat) (s : script) (files : gmap nat string) (g : nat) :
  prints_without_file s →
  g ≠ output_buffer →
  getvalue g (run_script (environment update context output_buffer) s files).1
  = getvalue g files.
Proof.
  intros Hs Hg. revert files.
  induction Hs as [v|e|args kwargs k Hnone Hk IH]; intros files; [done|done|].
  cbn [run_script environment env_print].
  destruct (print_output output_buffer args kwargs files) as [files1 r] eqn:Hp.
  cbn [environment] in IH. rewrite IH.
  change files1 with (files1, r).1. rewrite <- Hp.
  by apply print_output_other_sink.
Qed.

(** A script that reaches the sinks through the [print] of its environment
    only, and never passes [file] to it, writes to the buffer of its
    request and to nothing else: the standard output and every other sink
    are after the run as they were before it. *)
Theorem run_script_writes_buffer_only (update : Update) (context : Context)
    (output_buffer : nat) (s : script) (files : gmap nat string) (g : nat) :
  prints_without_file s →
  g ≠ output_buffer →
  getvalue g (run_script (environment update context output_buffer) s files).1
  = getvalue g files.
Proof. apply run_script_other_sinks. Qed.

Lemma run_script_writes_buffer_only_witness :
  getvalue sys_stdout
    (run_script (environment (Sample.update "/run x") (Sample.context ["x"]) 1)
       (meval_echo "x"
          (environment (Sample.update "/run x") (Sample.context ["x"]) 1))
       {[1 := ""]}).1
  = "".
Proof.
  assert (prints_without_file
            (meval_echo "x"
               (environment (Sample.update "/run x") (Sample.context ["x"]) 1)))
    as Hs.
  { apply pwf_CallPrint; [reflexivity|]. intros r. apply pwf_Return. }
  assert (sys_stdout ≠ 1) as Hg by discriminate.
  exact (run_script_writes_buffer_only (Sample.update "/run x")
           (Sample.context ["x"]) 1 _ {[1 := ""]} sys_stdout Hs Hg).
Defined.

(** ** The script text of a command *)

Lemma lstrip_spec (s : string) :
  ∃ w, s = w +:+ Str.lstrip s ∧ Str.all_space w = true
       ∧ (Str.lstrip s = ""
          ∨ ∃ c r, Str.lstrip s = String c r ∧ Str.isspace c = false).
Proof.
  induction s as [|c s (w & Hs & Hw & Hl)].
  - exists "". split_and!; [done|done|by left].
  - cbn [Str.lstrip]. destruct (Str.isspace c) eqn:Hc.
    + exists (String c w). rewrite app_cons, <- Hs. cbn [Str.all_space].
      by rewrite Hc, Hw.
    + exists "". split_and!; [done|done|]. right. by eauto.
Qed.

Lemma span_word_spec (s : string) :
  s = (Str.span_word s).1 +:+ (Str.span_word s).2
  ∧ no_space (Str.span_word s).1 = true
  ∧ ((Str.span_word s).2 = ""
     ∨ ∃ c r, (Str.span_word s).2 = String c r ∧ Str.isspace c = true).
Proof.
  induction s as [|c s (Hs & Hw & Hr)].
  - split_and!; [done|done|by left].
  - cbn [Str.span_word]. destruct (Str.isspace c) eqn:Hc.
    + split_and!; [done|done|]. right. by eauto.
    + destruct (Str.span_word s) as [w r]. cbn [fst snd] in *.
      rewrite app_cons, <- Hs. cbn [no_space]. by rewrite Hc, Hw.
Qed.

(** When the text of the message has a second field, the command text is
    that field: the text is made of leading white space, a first word
    without white space, at least one character of white space, and the
    command text, which starts with a character that is not white space and
    runs to the end of the message, trailing white space included. *)
Theorem command_of_text (message_text command : string) :
  Str.split_ws_1 message_text !! 1 = Some command →
  ∃ lead word blank,
    message_text = lead +:+ word +:+ blank +:+ command
    ∧ Str.all_space lead = true
    ∧ no_space word = true ∧ word ≠ ""
    ∧ Str.all_space blank = true ∧ blank ≠ ""
    ∧ ∃ c r, command = String c r ∧ Str.isspace c = false.
Proof.
  unfold Str.split_ws_1.
  destruct (lstrip_spec message_text) as (lead & Htext & Hlead & Hl).
  destruct (Str.lstrip message_text) as [|c0 r0] eqn:Hs0; [done|].
  destruct Hl as [Hl|(c & r & [= <- <-] & Hc0)]; [done|].
  pose proof (span_word_spec (String c0 r0)) as (Hsplit & Hword & Hrest).
  assert ((Str.span_word (String c0 r0)).1 ≠ "") as Hne.
  { cbn [Str.span_word]. rewrite Hc0. by destruct (Str.span_word r0). }
  destruct (Str.span_word (String c0 r0)) as [word rest]. cbn [fst snd] in *.
  destruct (lstrip_spec rest) as (blank & Hrest' & Hblank & Hcmd).
  destruct (Str.lstrip rest) as [|c r] eqn:Hlr; [done|].
  intros [= <-].
  destruct Hcmd as [Hcmd|(c' & r' & [= <- <-] & Hc)]; [done|].
  exists lead, word, blank. split_and!; try done.
  - by rewrite <- Hrest', <- Hsplit.
  - intros ->. rewrite app_empty_l in Hrest'. subst rest.
    destruct Hrest as [Hrest|(c' & r' & [= <- <-] & Hsp)]; congruence.
  - by eauto.
Qed.

Lemma command_of_text_witness :
  ∃ lead word blank,
    "/run  print(1)  " = lead +:+ word +:+ blank +:+ "print(1)  "
    ∧ no_space word = true ∧ Str.all_space blank = true.
Proof.
  destruct (command_of_text "/run  print(1)  " "print(1)  " eq_refl)
    as (lead & word & blank & H1 & _ & H2 & _ & H3 & _).
  exists lead, word, blank. split; [exact H1|]. split; [exact H2 | exact H3].
Defined.

(** ** What [rstrip] removes *)

Lemma rstrip_idempotent (s : string) : Str.rstrip (Str.rstrip s) = Str.rstrip s.
Proof.
  induction s as [|c s IH]; [done|].
  cbn [Str.rstrip].
  destruct (Str.is_empty (Str.rstrip s) && Str.isspace c) eqn:Hc; [done|].
  cbn [Str.rstrip]. by rewrite IH, Hc.
Qed.

(** [rstrip] cuts white space and nothing else: the text is what [rstrip]
    returns followed by white space only; stripping again changes nothing;
    and the result is empty exactly when the whole text is white space. *)
Theorem rstrip_removes_white_space_only (s : string) :
  (∃ w, s = Str.rstrip s +:+ w ∧ Str.all_space w = true)
  ∧ Str.rstrip (Str.rstrip s) = Str.rstrip s
  ∧ (Str.rstrip s = "" ↔ Str.all_space s = true).
Proof.
  split; [apply rstrip_split|]. split; [apply rstrip_idempotent|].
  split.
  - intros H. destruct (rstrip_split s) as (w & Hs & Hw).
    rewrite H, app_empty_l in Hs. by subst w.
  - apply rstrip_all_space.
Qed.

(** ** The ways a request ends *)

Section Outcomes.

Variable getcwd_tail : string.
Variable format_list : list FrameSummary → list string.
Variable meval : string → Environment → script.

Local Abbreviation execute_code := (execute_code getcwd_tail format_list meval).
Local Abbreviation evaluate := (evaluate getcwd_tail format_list meval).
Local Abbreviation handle_eval := (handle_eval getcwd_tail format_list meval).

Lemma execute_code_files command env files :
  (execute_code command env files).1
  = (run_script env (meval command env) files).1.
Proof.
  unfold execute_code.
  destruct (run_script env (meval command env) files) as [files1 [e1|v]];
    [|done].
  destruct (derives_Exception e1); [|done].
  by destruct (format_exception_with_traceback getcwd_tail format_list e1).
Qed.

(** A request ends with all of its reply or with none of it. When nothing
    is raised, the calls are the usage reminder alone; or the placeholder,
    the call of the interpreter and one edit of the placeholder; or the
    placeholder, the call of the interpreter, the deletion of the
    placeholder and a document. When the handler ends with an exception,
    either nothing was sent and the exception is the [IndexError] of the
    missing script text, or the placeholder was sent and the interpreter
    called, and the placeholder is neither edited nor deleted. *)
Theorem handle_eval_outcomes (update : Update) (context : Context)
    (uuid4 : string) (files : gmap nat string) :
  let o := handle_eval update context uuid4 files in
  (raised o = None
   ∧ (actions o = [reply_text USAGE]
      ∨ (∃ command s,
           actions o
           = [reply_text PLACEHOLDER; meval_call command; edit_text s])
      ∨ (∃ command file_name data caption,
           actions o
           = [reply_text PLACEHOLDER; meval_call command; delete;
              reply_document file_name data caption])))
  ∨ (∃ e, raised o = Some e
          ∧ ((actions o = [] ∧ e = IndexError "list index out of range")
             ∨ (∃ command,
                  actions o = [reply_text PLACEHOLDER; meval_call command]))).
Proof.
  cbv zeta. unfold handle_eval.
  destruct (length (args context) <? 1); [left; split; [done|by left]|].
  destruct (Str.split_ws_1 (text (effective_message update)) !! 1)
    as [command|]; [|right; eexists; split; [done|by left]].
  destruct (evaluate update context command files)
    as [files' [e|[prefix captured]]] eqn:Heval.
  - right. exists e. split; [done|]. right. by exists command.
  - left. split; [done|]. right. cbn [actions].
    unfold handle_response.
    destruct (LIMIT <? String.length (Str.rstrip captured)).
    + right. by do 4 eexists.
    + left. by do 2 eexists.
Qed.

(** When every script reaches the sinks through the [print] of its
    environment only and never passes [file] to it, a request writes to its
    own buffer and to nothing else: every sink that is not the buffer of
    the request, the standard output and the buffers of other requests
    among them, holds after the request what it held before. *)
Theorem handle_eval_leaves_other_sinks (update : Update) (context : Context)
    (uuid4 : string) (files : gmap nat string) (g : nat) :
  (∀ command env, prints_without_file (meval command env)) →
  g ≠ (StringIO files).1 →
  getvalue g (files_after (handle_eval update context uuid4 files))
  = getvalue g files.
Proof.
  intros Hquiet Hg. unfold handle_eval.
  destruct (length (args context) <? 1); [done|].
  destruct (Str.split_ws_1 (text (effective_message update)) !! 1)
    as [command|]; [|done].
  assert (getvalue g (evaluate update context command files).1
          = getvalue g files) as Heval.
  { unfold evaluate.
    destruct (StringIO files) as [output_buffer files1] eqn:Hbuf.
    cbn [fst] in Hg.
    assert (getvalue g files1 = getvalue g files) as H1.
    { unfold StringIO in Hbuf. injection Hbuf as Hb <-.
      unfold getvalue. rewrite lookup_insert_ne; [done|]. by rewrite Hb. }
    pose proof (execute_code_files command
                  (environment update context output_buffer) files1) as Hfiles.
    pose proof (run_script_other_sinks update context output_buffer
                  (meval command (environment update context output_buffer))
                  files1 g (Hquiet _ _) Hg) as Hrun.
    rewrite <- Hfiles in Hrun.
    destruct (execute_code command _ files1)
      as [files2 [e|[prefix [[e|r]|]]]]; cbn [fst] in *.
    - by rewrite Hrun.
    - by rewrite Hrun.
    - rewrite py_print_result. cbn [fst].
      rewrite getvalue_write_ne by done. by rewrite Hrun.
    - by rewrite Hrun. }
  destruct (evaluate update context command files)
    as [files' [e|[prefix captured]]]; exact Heval.
Qed.

End Outcomes.

Lemma handle_eval_leaves_other_sinks_witness :
  getvalue sys_stdout
    (files_after (handle_eval Sample.cwd_tail Sample.format_list meval_echo
                    (Sample.update "/run x") (Sample.context ["x"])
                    Sample.uuid4 {[sys_stdout := "log"]}))
  = "log".
Proof.
  assert (∀ command env, prints_without_file (meval_echo command env)) as Hq.
  { intros command env. apply pwf_CallPrint; [reflexivity|].
    intros r. apply pwf_Return. }
  assert (sys_stdout ≠ (StringIO {[sys_stdout := "log"]}).1) as Hg
    by (vm_compute; discriminate).
  exact (handle_eval_leaves_other_sinks Sample.cwd_tail Sample.format_list
           meval_echo (Sample.update "/run x") (Sample.context ["x"])
           Sample.uuid4 {[sys_stdout := "log"]} sys_stdout Hq Hg).
Defined.

(** ** Suffixes and substrings, in full *)

Lemma skip_split (n : nat) (s : string) :
  ∃ x, s = x +:+ Str.skip n s ∧ String.length x = Nat.min n (String.length s).
Proof.
  revert s. induction n as [|n IH]; intros s.
  - by exists "".
  - destruct s as [|c s]; [by exists ""|].
    destruct (IH s) as (x & Hs & Hx). exists (String c x).
    cbn [Str.skip]. rewrite app_cons, <- Hs. cbn. by rewrite Hx.
Qed.

Lemma endswith_iff (s p : string) :
  Str.endswith s p = true ↔ ∃ x, s = x +:+ p.
Proof.
  split.
  - unfold Str.endswith. intros [_ Heq]%andb_true_iff.
    apply String.eqb_eq in Heq.
    destruct (skip_split (String.length s - String.length p) s) as (x & Hs & _).
    exists x. by rewrite <- Heq.
  - intros [x ->]. apply endswith_app.
Qed.

Lemma startswith_iff (s p : string) :
  Str.startswith s p = true ↔ ∃ y, s = p +:+ y.
Proof.
  split.
  - revert s. induction p as [|a p IH]; intros s H; [by exists s|].
    destruct s as [|b s]; [done|].
    cbn [Str.startswith] in H. apply andb_true_iff in H as [Hab H].
    apply Ascii.eqb_eq in Hab. subst b.
    destruct (IH s H) as [y ->]. by exists y.
  - intros [y ->]. apply startswith_refl_app.
Qed.

Lemma contains_iff (s p : string) :
  Str.contains s p = true ↔ ∃ x y, s = x +:+ p +:+ y.
Proof.
  split.
  - induction s as [|c s IH]; cbn [Str.contains].
    + rewrite orb_false_r. intros [y Hy]%startswith_iff. by exists "", y.
    + intros [H|H]%orb_true_iff.
      * apply startswith_iff in H as [y Hy]. by exists "", y.
      * destruct (IH H) as (x & y & ->). by exists (String c x), y.
  - intros (x & y & ->). induction x as [|c x IH].
    + rewrite app_empty_l. apply contains_startswith, startswith_refl_app.
    + rewrite app_cons. cbn [Str.contains]. rewrite IH. apply orb_true_r.
Qed.

(** A frame is taken for the boundary exactly when its file name is
    ["<string>"] or is some text followed by ["ast.py"]: the test looks at
    the end of the name, not at its last component, so that a file such as
    [plugins/broadcast.py] passes it as [ast.py] does. *)
Theorem is_snippet_frame_iff (frame : FrameSummary) :
  is_snippet_frame frame = true
  ↔ filename frame = "<string>" ∨ ∃ x, filename frame = x +:+ "ast.py".
Proof.
  unfold is_snippet_frame.
  by rewrite orb_true_iff, String.eqb_eq, endswith_iff.
Qed.

(** The file name of a frame is rewritten exactly when it is some text,
    the working directory, and some text again: wherever the directory
    stands in the name, the frame passes the test and gets the [relpath] of
    its name; a frame whose name does not contain the directory is left as
    it is. *)
Theorem relativize_iff_directory_occurs (tail : string) (frame : FrameSummary) :
  ((∃ x y, filename frame = x +:+ getcwd tail +:+ y)
   ∧ ∃ rel,
       posixpath.relpath (getcwd tail) (filename frame) (getcwd tail) = Some rel
       ∧ relativize (getcwd tail) [frame] = inr [set_filename frame rel])
  ∨ ((¬ ∃ x y, filename frame = x +:+ getcwd tail +:+ y)
     ∧ relativize (getcwd tail) [frame] = inr [frame]).
Proof.
  cbn [relativize].
  destruct (Str.contains (filename frame) (getcwd tail)) eqn:Hc.
  - left. split; [by apply contains_iff|].
    destruct (relpath_nonempty (getcwd tail) (filename frame) (getcwd tail))
      as [rel Hrel]; [by eapply contains_nonempty|].
    exists rel. by rewrite Hrel.
  - right. split; [|done]. intros H. apply contains_iff in H. congruence.
Qed.
